(** * Quiz client: state-synchronisation core

    A shallow embedding of the two client scripts of the repository,
    [script.js] and [static/script.js].  Both run inside one
    [DOMContentLoaded] callback that owns two variables
    ([totalQuestions], [correctAnswers]) and a handful of DOM nodes.
    Every [async] function is cut at its [await]: the part before it is a
    state transformer that issues the request and parks a continuation,
    the part after it is a state transformer indexed by the reply.  An
    event loop interleaves continuations, clicks and timers. *)

From stdpp Require Import base gmap sets list strings pretty sorting.

Open Scope Z_scope.

(** ** Values decoded from JSON

    The scripts read [total_questions], [unlocked_question] and [correct]
    without checking their type, so these fields are kept dynamic.
    Numbers are the integers of the backend contract. *)

Inductive JsVal : Type :=
| JUndefined
| JNull
| JBool (b : bool)
| JNum (n : Z).

(** [ToNumber]; [None] stands for [NaN]. *)
Definition to_number (v : JsVal) : option Z :=
  match v with
  | JUndefined => None
  | JNull => Some 0
  | JBool b => Some (if b then 1 else 0)
  | JNum n => Some n
  end.

(** [v > n] for a number [n]: false as soon as one side is [NaN]. *)
Definition js_gt (v : JsVal) (n : Z) : bool :=
  match to_number v with
  | Some m => n <? m
  | None => false
  end.

(** [i <= v] for a number [i]. *)
Definition js_le (i : Z) (v : JsVal) : bool :=
  match to_number v with
  | Some m => i <=? m
  | None => false
  end.

(** [n === v] for a number [n]: no coercion. *)
Definition js_strict_eq (n : Z) (v : JsVal) : bool :=
  match v with
  | JNum m => n =? m
  | _ => false
  end.

(** Truthiness of a value used as a condition. *)
Definition truthy (v : JsVal) : bool :=
  match v with
  | JUndefined | JNull => false
  | JBool b => b
  | JNum n => negb (n =? 0)
  end.

(** ** Server data *)

Record Question : Type := {
  id : Z;
  is_public : bool
}.

(** A decoded JSON object.  A field the body does not carry reads as
    [undefined] ([JUndefined], or [None] for the typed fields). *)
Record Json : Type := {
  total_questions : JsVal;
  unlocked_question : JsVal;
  questions : option (list Question);
  question : option string;
  options : option (list string);
  image : option string;
  error : option string;
  correct : JsVal
}.

Definition status_json (total unlocked : Z) : Json :=
  {| total_questions := JNum total; unlocked_question := JNum unlocked;
     questions := None; question := None; options := None; image := None;
     error := None; correct := JUndefined |}.

Definition questions_json (qs : list Question) : Json :=
  {| total_questions := JUndefined; unlocked_question := JUndefined;
     questions := Some qs; question := None; options := None; image := None;
     error := None; correct := JUndefined |}.

Definition question_json (text : string) (opts : list string)
    (img : option string) : Json :=
  {| total_questions := JUndefined; unlocked_question := JUndefined;
     questions := None; question := Some text; options := Some opts;
     image := img; error := None; correct := JUndefined |}.

Definition error_json (msg : string) : Json :=
  {| total_questions := JUndefined; unlocked_question := JUndefined;
     questions := None; question := None; options := None; image := None;
     error := Some msg; correct := JUndefined |}.

Definition verdict_json (b : bool) : Json :=
  {| total_questions := JUndefined; unlocked_question := JUndefined;
     questions := None; question := None; options := None; image := None;
     error := None; correct := JBool b |}.

(** Outcome of [await fetch(..)] followed by [await response.json()].
    Nothing is read or written between the two awaits, so they form one
    suspension.  [Rejected]: [fetch] rejected, or the body was not JSON;
    either way the enclosing [try] jumps to its [catch]. *)
Inductive Response : Type :=
| Rejected
| Resolved (ok : bool) (data : Json).

(** ** The page *)

(** A button of [#question-list]; [btn_onclick = Some q] is the handler
    [() => loadQuestion(q)]. *)
Record QuestionBtn : Type := {
  btn_text : string;
  btn_classes : list string;
  btn_disabled : bool;
  btn_onclick : option Z
}.

(** An [.option-btn]; [opt_onclick = (q, o)] is the handler
    [() => submitAnswer(q, o)]. *)
Record OptionBtn : Type := {
  opt_text : string;
  opt_disabled : bool;
  opt_onclick : Z * string
}.

(** The two variables of the closure. *)
Record Session : Type := {
  totalQuestions : JsVal;
  correctAnswers : gset Z
}.

(** The DOM nodes the scripts touch.  [*_hidden] is membership of the
    class [hidden]; [quizImage] is the [src] of [#quiz-image] if that
    element exists. *)
Record Dom : Type := {
  questionListDiv : list QuestionBtn;
  quizContainer_hidden : bool;
  clearMessage_hidden : bool;
  questionText : string;
  optionsContainer : list OptionBtn;
  resultMessage_text : string;
  resultMessage_class : string;
  quizImage : option string
}.

(** A parked [async] activation, named by the function that awaits. *)
Inductive Pending : Type :=
| AwaitStatus
| AwaitAllQuestions
| AwaitQuestion (q_id : Z)
| AwaitAnswer (q_id : Z) (answer : string)
| AwaitClear.

Inductive Request : Type :=
| GetStatus
| GetAllQuestions
| GetQuestion (q_id : Z)
| PostAnswer (q_id : Z) (answer : string).

Inductive Call : Type :=
| CallCheckStatus
| CallUpdateQuestionList
| CallLoadQuestion (q_id : Z)
| CallSubmitAnswer (q_id : Z) (answer : string)
| CallCheckClearCondition.

(** What the browser keeps for the page: the clock, the next due time of
    the [setInterval], the due times of the [setTimeout] callbacks, the
    parked activations, and three traces (requests sent, [console.error]
    lines, function activations). *)
Record Runtime : Type := {
  clock : Z;
  interval : Z;
  timeouts : list Z;
  pending : list Pending;
  requests : list Request;
  console : list string;
  calls : list Call
}.

Record State : Type := {
  session : Session;
  dom : Dom;
  runtime : Runtime
}.

(** *** Field updates *)

Definition upd_session (f : Session → Session) (st : State) : State :=
  {| session := f (session st); dom := dom st; runtime := runtime st |}.

Definition upd_dom (f : Dom → Dom) (st : State) : State :=
  {| session := session st; dom := f (dom st); runtime := runtime st |}.

Definition upd_runtime (f : Runtime → Runtime) (st : State) : State :=
  {| session := session st; dom := dom st; runtime := f (runtime st) |}.

Definition set_totalQuestions (v : JsVal) : State → State :=
  upd_session (λ s,
    {| totalQuestions := v; correctAnswers := correctAnswers s |}).

(** [correctAnswers.add(q)] *)
Definition correctAnswers_add (q : Z) : State → State :=
  upd_session (λ s,
    {| totalQuestions := totalQuestions s;
       correctAnswers := {[q]} ∪ correctAnswers s |}).

Definition set_questionListDiv (l : list QuestionBtn) : State → State :=
  upd_dom (λ d,
    {| questionListDiv := l;
       quizContainer_hidden := quizContainer_hidden d;
       clearMessage_hidden := clearMessage_hidden d;
       questionText := questionText d;
       optionsContainer := optionsContainer d;
       resultMessage_text := resultMessage_text d;
       resultMessage_class := resultMessage_class d;
       quizImage := quizImage d |}).

Definition set_quizContainer_hidden (b : bool) : State → State :=
  upd_dom (λ d,
    {| questionListDiv := questionListDiv d;
       quizContainer_hidden := b;
       clearMessage_hidden := clearMessage_hidden d;
       questionText := questionText d;
       optionsContainer := optionsContainer d;
       resultMessage_text := resultMessage_text d;
       resultMessage_class := resultMessage_class d;
       quizImage := quizImage d |}).

Definition set_clearMessage_hidden (b : bool) : State → State :=
  upd_dom (λ d,
    {| questionListDiv := questionListDiv d;
       quizContainer_hidden := quizContainer_hidden d;
       clearMessage_hidden := b;
       questionText := questionText d;
       optionsContainer := optionsContainer d;
       resultMessage_text := resultMessage_text d;
       resultMessage_class := resultMessage_class d;
       quizImage := quizImage d |}).

Definition set_questionText (s : string) : State → State :=
  upd_dom (λ d,
    {| questionListDiv := questionListDiv d;
       quizContainer_hidden := quizContainer_hidden d;
       clearMessage_hidden := clearMessage_hidden d;
       questionText := s;
       optionsContainer := optionsContainer d;
       resultMessage_text := resultMessage_text d;
       resultMessage_class := resultMessage_class d;
       quizImage := quizImage d |}).

Definition set_optionsContainer (l : list OptionBtn) : State → State :=
  upd_dom (λ d,
    {| questionListDiv := questionListDiv d;
       quizContainer_hidden := quizContainer_hidden d;
       clearMessage_hidden := clearMessage_hidden d;
       questionText := questionText d;
       optionsContainer := l;
       resultMessage_text := resultMessage_text d;
       resultMessage_class := resultMessage_class d;
       quizImage := quizImage d |}).

Definition set_resultMessage_text (s : string) : State → State :=
  upd_dom (λ d,
    {| questionListDiv := questionListDiv d;
       quizContainer_hidden := quizContainer_hidden d;
       clearMessage_hidden := clearMessage_hidden d;
       questionText := questionText d;
       optionsContainer := optionsContainer d;
       resultMessage_text := s;
       resultMessage_class := resultMessage_class d;
       quizImage := quizImage d |}).

Definition set_resultMessage_class (s : string) : State → State :=
  upd_dom (λ d,
    {| questionListDiv := questionListDiv d;
       quizContainer_hidden := quizContainer_hidden d;
       clearMessage_hidden := clearMessage_hidden d;
       questionText := questionText d;
       optionsContainer := optionsContainer d;
       resultMessage_text := resultMessage_text d;
       resultMessage_class := s;
       quizImage := quizImage d |}).

Definition set_quizImage (o : option string) : State → State :=
  upd_dom (λ d,
    {| questionListDiv := questionListDiv d;
       quizContainer_hidden := quizContainer_hidden d;
       clearMessage_hidden := clearMessage_hidden d;
       questionText := questionText d;
       optionsContainer := optionsContainer d;
       resultMessage_text := resultMessage_text d;
       resultMessage_class := resultMessage_class d;
       quizImage := o |}).

Definition set_clock (t : Z) : State → State :=
  upd_runtime (λ r,
    {| clock := t; interval := interval r; timeouts := timeouts r;
       pending := pending r; requests := requests r; console := console r;
       calls := calls r |}).

Definition set_interval (t : Z) : State → State :=
  upd_runtime (λ r,
    {| clock := clock r; interval := t; timeouts := timeouts r;
       pending := pending r; requests := requests r; console := console r;
       calls := calls r |}).

Definition set_timeouts (l : list Z) : State → State :=
  upd_runtime (λ r,
    {| clock := clock r; interval := interval r; timeouts := l;
       pending := pending r; requests := requests r; console := console r;
       calls := calls r |}).

Definition set_pending (l : list Pending) : State → State :=
  upd_runtime (λ r,
    {| clock := clock r; interval := interval r; timeouts := timeouts r;
       pending := l; requests := requests r; console := console r;
       calls := calls r |}).

(** [fetch(req)] followed by [await]: the request leaves and the
    activation [p] is parked. *)
Definition fetch_await (req : Request) (p : Pending) : State → State :=
  upd_runtime (λ r,
    {| clock := clock r; interval := interval r; timeouts := timeouts r;
       pending := pending r ++ [p]; requests := requests r ++ [req];
       console := console r; calls := calls r |}).

(** [console.error(msg, ..)] *)
Definition console_error (msg : string) : State → State :=
  upd_runtime (λ r,
    {| clock := clock r; interval := interval r; timeouts := timeouts r;
       pending := pending r; requests := requests r;
       console := console r ++ [msg]; calls := calls r |}).

(** Entry of a function of the script. *)
Definition enter (c : Call) : State → State :=
  upd_runtime (λ r,
    {| clock := clock r; interval := interval r; timeouts := timeouts r;
       pending := pending r; requests := requests r; console := console r;
       calls := calls r ++ [c] |}).

(** [setTimeout(cb, delay)]: one callback, due [delay] after now. *)
Definition setTimeout (delay : Z) (st : State) : State :=
  set_timeouts (timeouts (runtime st) ++ [clock (runtime st) + delay]) st.

(** ** Pieces shared by the two scripts *)

(** The template [`第${q_id}問`]. *)
Definition label (q_id : Z) : string := "第" +:+ pretty q_id +:+ "問".

Definition with_disabled (b : bool) (o : OptionBtn) : OptionBtn :=
  {| opt_text := opt_text o; opt_disabled := b; opt_onclick := opt_onclick o |}.

(** [document.querySelectorAll('.option-btn').forEach(btn => btn.disabled = b)] *)
Definition set_options_disabled (b : bool) (st : State) : State :=
  set_optionsContainer (with_disabled b <$> optionsContainer (dom st)) st.

(** The button built for one option by [loadQuestion]. *)
Definition option_button (q_id : Z) (o : string) : OptionBtn :=
  {| opt_text := o; opt_disabled := false; opt_onclick := (q_id, o) |}.

(** The callback handed to [setTimeout] by [submitAnswer]. *)
Definition cooldown_callback (st : State) : State :=
  set_resultMessage_text "" (set_options_disabled false st).

Definition all_disabled (st : State) : Prop :=
  Forall (λ o, opt_disabled o = true) (optionsContainer (dom st)).

(** ** The event loop

    A script is given by what it does on the events of the page. *)
Record Program : Type := {
  on_interval : State → State;
  on_question_click : Z → State → State;
  on_option_click : Z → string → State → State;
  on_response : Pending → Response → State → State;
  on_timeout : State → State
}.

Inductive Event : Type :=
| Advance (dt : Z)
| Tick
| ClickQuestion (i : nat)
| ClickOption (i : nat)
| Respond (k : nat) (r : Response)
| Fire (k : nat).

(** One turn of the loop.  An event that cannot happen in [st] (a click
    on a missing or disabled button, a reply to nothing, a timer that is
    not due) leaves the state as it is. *)
Definition step (P : Program) (st : State) (e : Event) : State :=
  match e with
  | Advance dt =>
      if 0 <=? dt then set_clock (clock (runtime st) + dt) st else st
  | Tick =>
      if interval (runtime st) <=? clock (runtime st)
      then on_interval P (set_interval (interval (runtime st) + 5000) st)
      else st
  | ClickQuestion i =>
      match questionListDiv (dom st) !! i with
      | Some b =>
          if btn_disabled b then st
          else match btn_onclick b with
               | Some q => on_question_click P q st
               | None => st
               end
      | None => st
      end
  | ClickOption i =>
      match optionsContainer (dom st) !! i with
      | Some b =>
          if opt_disabled b then st
          else on_option_click P (opt_onclick b).1 (opt_onclick b).2 st
      | None => st
      end
  | Respond k r =>
      match pending (runtime st) !! k with
      | Some p => on_response P p r (set_pending (delete k (pending (runtime st))) st)
      | None => st
      end
  | Fire k =>
      match timeouts (runtime st) !! k with
      | Some due =>
          if due <=? clock (runtime st)
          then on_timeout P (set_timeouts (delete k (timeouts (runtime st))) st)
          else st
      | None => st
      end
  end.

Definition run (P : Program) (st : State) (evs : list Event) : State :=
  foldl (step P) st evs.

(** ** [Array.prototype.sort] with the comparator [(a, b) => a.id - b.id]

    The sort is stable; so is this insertion sort: an element goes in
    front of the first element whose id is not smaller. *)
Fixpoint insert_by_id (q : Question) (l : list Question) : list Question :=
  match l with
  | [] => [q]
  | q' :: l' =>
      if id q <=? id q' then q :: q' :: l' else q' :: insert_by_id q l'
  end.

Definition sort_by_id (l : list Question) : list Question :=
  foldr insert_by_id [] l.

(** ** script.js *)
Module Script.

(** [checkClearCondition], lines 191-193: up to the [await]. *)
Definition checkClearCondition (st : State) : State :=
  fetch_await GetStatus AwaitClear (enter CallCheckClearCondition st).

(** [checkClearCondition], lines 194-206: after the [await]. *)
Definition checkClearCondition_resume (r : Response) (st : State) : State :=
  match r with
  | Resolved _ data =>
      let currentPublicCount := unlocked_question data in
      if js_gt currentPublicCount 0
         && js_strict_eq (Z.of_nat (size (correctAnswers (session st))))
              currentPublicCount
      then set_clearMessage_hidden false (set_quizContainer_hidden true st)
      else set_clearMessage_hidden true st
  | Rejected => console_error "Error checking clear condition:" st
  end.

(** The button built for one question, lines 53-67. *)
Definition question_button (answered : gset Z) (q : Question) : QuestionBtn :=
  if is_public q then
    {| btn_text := label (id q);
       btn_classes :=
         "question-btn" :: (if decide (id q ∈ answered) then ["answered"] else []);
       btn_disabled := false;
       btn_onclick := Some (id q) |}
  else
    {| btn_text := label (id q) +:+ " (非公開)";
       btn_classes := ["question-btn"; "locked"];
       btn_disabled := true;
       btn_onclick := None |}.

(** [updateQuestionList], lines 39-44: the list is emptied before the
    [await]; the two arguments are not used. *)
Definition updateQuestionList (publicCount totalCount : JsVal)
    (st : State) : State :=
  fetch_await GetAllQuestions AwaitAllQuestions
    (set_questionListDiv [] (enter CallUpdateQuestionList st)).

(** [updateQuestionList], lines 45-72: the buttons are appended to
    whatever the list holds when the reply arrives.  A reply that is not
    [ok] throws; a body without [questions] makes [questions.sort]
    throw. *)
Definition updateQuestionList_resume (r : Response) (st : State) : State :=
  match r with
  | Resolved true data =>
      match questions data with
      | Some qs =>
          set_questionListDiv
            (questionListDiv (dom st)
               ++ (question_button (correctAnswers (session st))
                     <$> sort_by_id qs)) st
      | None => console_error "Error updating question list:" st
      end
  | _ => console_error "Error updating question list:" st
  end.

(** [checkStatus], lines 19-21. *)
Definition checkStatus (st : State) : State :=
  fetch_await GetStatus AwaitStatus (enter CallCheckStatus st).

(** [checkStatus], lines 22-31: [response.ok] is not looked at. *)
Definition checkStatus_resume (r : Response) (st : State) : State :=
  match r with
  | Resolved _ data =>
      updateQuestionList (unlocked_question data) (total_questions data)
        (set_totalQuestions (total_questions data) st)
  | Rejected => console_error "Error fetching status:" st
  end.

(** The [catch] of [loadQuestion], lines 139-146. *)
Definition loadQuestion_catch (q_id : Z) (st : State) : State :=
  set_questionText (label q_id)
    (set_optionsContainer []
       (set_quizContainer_hidden false
          (set_resultMessage_class "incorrect"
             (set_resultMessage_text "問題の読み込み中にエラーが発生しました。"
                (console_error ("Error loading question " +:+ pretty q_id +:+ ":")
                   st))))).

(** [loadQuestion], lines 79-95: the guard, or the request. *)
Definition loadQuestion (q_id : Z) (st : State) : State :=
  let st := enter (CallLoadQuestion q_id) st in
  if decide (q_id ∈ correctAnswers (session st)) then
    set_questionText (label q_id)
      (set_quizImage None
         (set_optionsContainer []
            (set_quizContainer_hidden false
               (set_resultMessage_class ""
                  (set_resultMessage_text "この問題はすでに正解済みです。" st)))))
  else fetch_await (GetQuestion q_id) (AwaitQuestion q_id) st.

(** [loadQuestion], lines 96-146.  A body without [options] makes
    [data.options.forEach] throw after the text was already set. *)
Definition loadQuestion_resume (q_id : Z) (r : Response) (st : State) : State :=
  match r with
  | Resolved false errorData =>
      set_quizImage None
        (set_questionText (label q_id)
           (set_optionsContainer []
              (set_quizContainer_hidden false
                 (set_resultMessage_class "incorrect"
                    (set_resultMessage_text (default "" (error errorData))
                       (console_error
                          ("Error loading question " +:+ pretty q_id +:+ ":")
                          st))))))
  | Resolved true data =>
      let st := set_quizImage None st in
      let st :=
        match image data with
        | Some name =>
            if decide (name = "") then st
            else set_quizImage (Some ("/static/images/" +:+ name)) st
        | None => st
        end in
      let st :=
        set_questionText
          (label q_id +:+ ": " +:+ default "undefined" (question data)) st in
      let st := set_optionsContainer [] st in
      let st := set_resultMessage_text "" st in
      match options data with
      | Some opts =>
          set_quizContainer_hidden false
            (set_optionsContainer (option_button q_id <$> opts) st)
      | None => loadQuestion_catch q_id st
      end
  | Rejected => loadQuestion_catch q_id st
  end.

(** [submitAnswer], lines 154-160. *)
Definition submitAnswer (q_id : Z) (answer : string) (st : State) : State :=
  fetch_await (PostAnswer q_id answer) (AwaitAnswer q_id answer)
    (enter (CallSubmitAnswer q_id answer) st).

(** [submitAnswer], lines 163-176: the verdict. *)
Definition verdict (q_id : Z) (data : Json) (st : State) : State :=
  let st := set_options_disabled true st in
  if truthy (correct data) then
    correctAnswers_add q_id
      (set_resultMessage_class "correct"
         (set_resultMessage_text "正解！ 🎉" st))
  else
    setTimeout 2000
      (set_resultMessage_class "incorrect"
         (set_resultMessage_text "不正解... 再挑戦してみてください。" st)).

(** [submitAnswer], lines 161-185. *)
Definition submitAnswer_resume (q_id : Z) (answer : string) (r : Response)
    (st : State) : State :=
  match r with
  | Resolved _ data =>
      checkStatus (checkClearCondition (verdict q_id data st))
  | Rejected =>
      set_resultMessage_class "incorrect"
        (set_resultMessage_text "回答の送信中にエラーが発生しました。"
           (console_error "Error submitting answer:" st))
  end.

Definition resume (p : Pending) (r : Response) (st : State) : State :=
  match p with
  | AwaitStatus => checkStatus_resume r st
  | AwaitAllQuestions => updateQuestionList_resume r st
  | AwaitQuestion q_id => loadQuestion_resume q_id r st
  | AwaitAnswer q_id answer => submitAnswer_resume q_id answer r st
  | AwaitClear => checkClearCondition_resume r st
  end.

(** Lines 58, 134, 172 and 216 wire the functions to the page. *)
Definition program : Program :=
  {| on_interval := checkStatus;
     on_question_click := loadQuestion;
     on_option_click := submitAnswer;
     on_response := resume;
     on_timeout := cooldown_callback |}.

End Script.

(** ** static/script.js *)
Module StaticScript.

(** [checkClearCondition], lines 152-157: synchronous, on the stored
    [totalQuestions]. *)
Definition checkClearCondition (st : State) : State :=
  let st := enter CallCheckClearCondition st in
  if js_gt (totalQuestions (session st)) 0
     && js_strict_eq (Z.of_nat (size (correctAnswers (session st))))
          (totalQuestions (session st))
  then set_clearMessage_hidden false (set_quizContainer_hidden true st)
  else st.

(** The button built for index [i], lines 46-62. *)
Definition question_button (answered : gset Z) (unlockedCount : JsVal)
    (i : Z) : QuestionBtn :=
  if js_le i unlockedCount then
    {| btn_text := label i;
       btn_classes :=
         "question-btn" :: (if decide (i ∈ answered) then ["answered"] else []);
       btn_disabled := false;
       btn_onclick := Some i |}
  else
    {| btn_text := label i +:+ " (ロック中)";
       btn_classes := ["question-btn"; "locked"];
       btn_disabled := true;
       btn_onclick := None |}.

(** The values of [i] in [for (let i = 1; i <= totalCount; i++)]. *)
Definition indices (totalCount : JsVal) : list Z :=
  match to_number totalCount with
  | Some n => seqZ 1 n
  | None => []
  end.

(** [updateQuestionList], lines 40-65: synchronous. *)
Definition updateQuestionList (unlockedCount totalCount : JsVal)
    (st : State) : State :=
  let st := enter CallUpdateQuestionList st in
  set_questionListDiv
    (question_button (correctAnswers (session st)) unlockedCount
       <$> indices totalCount) st.

(** [checkStatus], lines 20-22. *)
Definition checkStatus (st : State) : State :=
  fetch_await GetStatus AwaitStatus (enter CallCheckStatus st).

(** [checkStatus], lines 23-32. *)
Definition checkStatus_resume (r : Response) (st : State) : State :=
  match r with
  | Resolved _ data =>
      updateQuestionList (unlocked_question data) (total_questions data)
        (set_totalQuestions (total_questions data) st)
  | Rejected => console_error "Error fetching status:" st
  end.

(** The [catch] of [loadQuestion], lines 103-105. *)
Definition loadQuestion_catch (q_id : Z) (st : State) : State :=
  console_error ("Error loading question " +:+ pretty q_id +:+ ":") st.

(** [loadQuestion], lines 71-83. *)
Definition loadQuestion (q_id : Z) (st : State) : State :=
  let st := enter (CallLoadQuestion q_id) st in
  if decide (q_id ∈ correctAnswers (session st)) then
    set_questionText (label q_id)
      (set_optionsContainer []
         (set_quizContainer_hidden false
            (set_resultMessage_class ""
               (set_resultMessage_text "この問題はすでに正解済みです。" st))))
  else fetch_await (GetQuestion q_id) (AwaitQuestion q_id) st.

(** [loadQuestion], lines 84-105. *)
Definition loadQuestion_resume (q_id : Z) (r : Response) (st : State) : State :=
  match r with
  | Resolved true data =>
      let st :=
        set_questionText
          (label q_id +:+ ": " +:+ default "undefined" (question data)) st in
      let st := set_optionsContainer [] st in
      let st := set_resultMessage_text "" st in
      match options data with
      | Some opts =>
          set_quizContainer_hidden false
            (set_optionsContainer (option_button q_id <$> opts) st)
      | None => loadQuestion_catch q_id st
      end
  | _ => loadQuestion_catch q_id st
  end.

(** [submitAnswer], lines 113-119. *)
Definition submitAnswer (q_id : Z) (answer : string) (st : State) : State :=
  fetch_await (PostAnswer q_id answer) (AwaitAnswer q_id answer)
    (enter (CallSubmitAnswer q_id answer) st).

(** [submitAnswer], lines 122-137: the verdict. *)
Definition verdict (q_id : Z) (data : Json) (st : State) : State :=
  let st := set_options_disabled true st in
  if truthy (correct data) then
    correctAnswers_add q_id
      (set_resultMessage_class "correct"
         (set_resultMessage_text "正解！ 🎉" st))
  else
    setTimeout 2000
      (set_resultMessage_class "incorrect"
         (set_resultMessage_text "不正解... 再挑戦してみてください。" st)).

(** [submitAnswer], lines 120-146. *)
Definition submitAnswer_resume (q_id : Z) (answer : string) (r : Response)
    (st : State) : State :=
  match r with
  | Resolved _ data =>
      checkStatus (checkClearCondition (verdict q_id data st))
  | Rejected => console_error "Error submitting answer:" st
  end.

(** No activation of this script parks at [AwaitAllQuestions] or
    [AwaitClear]. *)
Definition resume (p : Pending) (r : Response) (st : State) : State :=
  match p with
  | AwaitStatus => checkStatus_resume r st
  | AwaitQuestion q_id => loadQuestion_resume q_id r st
  | AwaitAnswer q_id answer => submitAnswer_resume q_id answer r st
  | AwaitAllQuestions | AwaitClear => st
  end.

Definition program : Program :=
  {| on_interval := checkStatus;
     on_question_click := loadQuestion;
     on_option_click := submitAnswer;
     on_response := resume;
     on_timeout := cooldown_callback |}.

End StaticScript.

(** ** Example pages and predicates *)

(** The variables as lines 5-6 initialise them, on a page whose panels
    are hidden and empty, before the first [checkStatus()]. *)
Definition page_load : State :=
  {| session := {| totalQuestions := JNum 0; correctAnswers := ∅ |};
     dom := {| questionListDiv := []; quizContainer_hidden := true;
               clearMessage_hidden := true; questionText := "";
               optionsContainer := []; resultMessage_text := "";
               resultMessage_class := ""; quizImage := None |};
     runtime := {| clock := 0; interval := 5000; timeouts := [];
                   pending := []; requests := []; console := [];
                   calls := [] |} |}.

(** A session that has answered the questions of [l] and stored [total]. *)
Definition answered (total : JsVal) (l : list Z) : State → State :=
  upd_session (λ _, {| totalQuestions := total; correctAnswers := list_to_set l |}).

(** Question [q_id] on display with the options [opts], all enabled. *)
Definition showing (q_id : Z) (opts : list string) (st : State) : State :=
  set_quizContainer_hidden false
    (set_optionsContainer (option_button q_id <$> opts) st).

Definition banner_shown (st : State) : Prop :=
  clearMessage_hidden (dom st) = false.

(** A reply that carries a count [n > 0] equal to the number of correct
    answers of [st]. *)
Definition fresh_count_clears (r : Response) (st : State) : Prop :=
  ∃ ok data n, r = Resolved ok data ∧ unlocked_question data = JNum n
    ∧ 0 < n ∧ Z.of_nat (size (correctAnswers (session st))) = n.

(** A reply from which [loadQuestion] of [static/script.js] reaches its
    last statement. *)
Definition loads (r : Response) : bool :=
  match r with
  | Resolved true data => bool_decide (is_Some (options data))
  | _ => false
  end.

(** Order of the rendered list. *)
Definition id_le (a b : Question) : Prop := id a ≤ id b.

Definition public_count (qs : list Question) : nat :=
  length (filter (λ q, is_public q = true) qs).

(** Events and activations that put a freshly loaded question on the
    page. *)
Definition is_question_click (e : Event) : bool :=
  match e with
  | ClickQuestion _ => true
  | _ => false
  end.

Definition is_question_load (p : Pending) : bool :=
  match p with
  | AwaitQuestion _ => true
  | _ => false
  end.

Definition no_question_click (evs : list Event) : Prop :=
  Forall (λ e, is_question_click e = false) evs.

Definition no_load_pending (st : State) : Prop :=
  Forall (λ p, is_question_load p = false) (pending (runtime st)).

Definition all_enabled (st : State) : Prop :=
  Forall (λ o, opt_disabled o = false) (optionsContainer (dom st)).

(** Every cooldown still pending ends at [T] or later. *)
Definition cooldowns_from (T : Z) (st : State) : Prop :=
  Forall (λ due, T ≤ due) (timeouts (runtime st)).

(** The options stay disabled until [T]: they are disabled, nothing that
    could enable them is due before [T], no question is being loaded, and
    a cooldown started now would end at [T] or later. *)
Definition cooling (T : Z) (st : State) : Prop :=
  all_disabled st ∧ cooldowns_from T st ∧ no_load_pending st
  ∧ T ≤ clock (runtime st) + 2000.

(** The initialisation at the end of the callback: [checkStatus()], then
    [setInterval(checkStatus, 5000)]. *)
Definition boot (P : Program) (st : State) : State :=
  let st := on_interval P st in
  set_interval (clock (runtime st) + 5000) st.

(** Three questions, the third one locked or not. *)
Definition three_questions (third_public : bool) : list Question :=
  [{| id := 2; is_public := true |}; {| id := 1; is_public := true |};
   {| id := 3; is_public := third_public |}].

(** ** Predicates on traces and replies *)

(** The request [fetch(`/api/question/${q_id}`)]. *)
Definition is_fetch_of (q_id : Z) (req : Request) : bool :=
  match req with
  | GetQuestion q => bool_decide (q = q_id)
  | _ => false
  end.

Definition fetches_of (q_id : Z) (l : list Request) : nat :=
  length (filter (λ req, is_fetch_of q_id req = true) l).

(** The question an activation was started for, when it was started from
    the question panel. *)
Definition pending_question (p : Pending) : option Z :=
  match p with
  | AwaitQuestion q | AwaitAnswer q _ => Some q
  | _ => None
  end.

Definition no_panel_pending (l : list Pending) : Prop :=
  Forall (λ p, pending_question p = None) l.

(** A reply from which [updateQuestionList] of [script.js] reaches its
    [forEach]. *)
Definition lists (r : Response) : bool :=
  match r with
  | Resolved true data => bool_decide (is_Some (questions data))
  | _ => false
  end.

(** The event is a reply whose body lists [q_id] as a public question. *)
Definition reports_public (q_id : Z) (e : Event) : bool :=
  match e with
  | Respond _ (Resolved _ data) =>
      match questions data with
      | Some qs =>
          bool_decide (Exists (λ x, id x = q_id ∧ is_public x = true) qs)
      | None => false
      end
  | _ => false
  end.

(** The event is a reply whose [unlocked_question] reaches [q_id]. *)
Definition reports_unlocked (q_id : Z) (e : Event) : bool :=
  match e with
  | Respond _ (Resolved _ data) => js_le q_id (unlocked_question data)
  | _ => false
  end.

(** Every question id the page can act on satisfies [S]: the handlers of
    the question buttons and of the options, the parked loads and
    submissions, and the correct answers. *)
Definition known (S : Z → Prop) (st : State) : Prop :=
  Forall (λ b, ∀ q, btn_onclick b = Some q → S q) (questionListDiv (dom st))
  ∧ Forall (λ o, S (opt_onclick o).1) (optionsContainer (dom st))
  ∧ Forall (λ p, ∀ q, pending_question p = Some q → S q) (pending (runtime st))
  ∧ (∀ q, q ∈ correctAnswers (session st) → S q).

(** A page on which no question id is in play yet. *)
Definition untouched (st : State) : Prop :=
  questionListDiv (dom st) = [] ∧ optionsContainer (dom st) = []
  ∧ no_panel_pending (pending (runtime st))
  ∧ correctAnswers (session st) = ∅.

(** The state with [totalQuestions] blanked. *)
Definition forget_total (st : State) : State := set_totalQuestions JUndefined st.

(** Nothing is left that could enable an option: the options are
    disabled, no cooldown is pending and no load or submission is in
    flight. *)
Definition settled (st : State) : Prop :=
  all_disabled st ∧ timeouts (runtime st) = []
  ∧ no_panel_pending (pending (runtime st)).

(** The question panel is hidden and no load is in flight. *)
Definition panel_closed (st : State) : Prop :=
  quizContainer_hidden (dom st) = true ∧ no_load_pending st.

(** The body [{}]. *)
Definition empty_reply : Json :=
  {| total_questions := JUndefined; unlocked_question := JUndefined;
     questions := None; question := None; options := None; image := None;
     error := None; correct := JUndefined |}.

(** The event is a reply from which [updateQuestionList] of [script.js]
    would render a list. *)
Definition carries_list (e : Event) : bool :=
  match e with
  | Respond _ r => lists r
  | _ => false
  end.

Definition no_list_reply (evs : list Event) : Prop :=
  Forall (λ e, carries_list e = false) evs.

(** * Properties *)

(** ** The model on a session

    Three questions, two of them visible.  The first poll renders two
    enabled buttons and a locked one; question 1 is loaded and answered
    correctly; the polls that follow report three visible questions, so
    the third button is enabled, the first is marked, and the banner
    stays hidden since one answer is not three. *)
Example session_with_three_questions :
  let s1 := run Script.program (boot Script.program page_load)
              [Respond 0 (Resolved true (status_json 3 2));
               Respond 0 (Resolved true (questions_json (three_questions false)))] in
  let s2 := run Script.program s1
              [ClickQuestion 0;
               Respond 0 (Resolved true (question_json "1+1?" ["2"; "3"] None));
               ClickOption 0;
               Respond 0 (Resolved true (verdict_json true))] in
  let s3 := run Script.program s2
              [Respond 0 (Resolved true (status_json 3 3));
               Respond 0 (Resolved true (status_json 3 3));
               Respond 0 (Resolved true (questions_json (three_questions true)))] in
  (btn_text <$> questionListDiv (dom s1)) = ["第1問"; "第2問"; "第3問 (非公開)"]
  ∧ (btn_disabled <$> questionListDiv (dom s1)) = [false; false; true]
  ∧ elements (correctAnswers (session s2)) = [1]
  ∧ pending (runtime s2) = [AwaitClear; AwaitStatus]
  ∧ (btn_disabled <$> questionListDiv (dom s3)) = [false; false; false]
  ∧ (btn_classes <$> questionListDiv (dom s3))
    = [["question-btn"; "answered"]; ["question-btn"]; ["question-btn"]]
  ∧ clearMessage_hidden (dom s3) = true.
Proof. repeat split; vm_compute; reflexivity. Qed.

Lemma clear_test_spec (v : JsVal) (sz : Z) :
  js_gt v 0 && js_strict_eq sz v = true ↔ ∃ n, v = JNum n ∧ 0 < n ∧ sz = n.
Proof.
  split.
  - intros H. apply andb_prop in H as [Hgt Heq].
    destruct v as [| |b|n]; simpl in Heq; try discriminate.
    exists n. unfold js_gt in Hgt. simpl in Hgt. split; [done|]. lia.
  - intros (n & -> & Hpos & ->). unfold js_gt. simpl.
    apply andb_true_intro. split; lia.
Qed.

(** C1, as the claim has it, fails twice.  In [script.js] a rejected
    read leaves a banner that was on display where it is, although no
    count was obtained.  In [static/script.js] the evaluation sends no
    request and decides on the stored [totalQuestions]: the same answers
    show the banner under a stored 2 and not under a stored 3. *)
Lemma clear_condition_counterexample :
  (let st := set_clearMessage_hidden false page_load in
   banner_shown (Script.checkClearCondition_resume Rejected st)
   ∧ ¬ fresh_count_clears Rejected st)
  ∧ (let st := answered (JNum 2) [1; 2] page_load in
     requests (runtime (StaticScript.checkClearCondition st)) = []
     ∧ banner_shown (StaticScript.checkClearCondition st)
     ∧ ¬ banner_shown
           (StaticScript.checkClearCondition (set_totalQuestions (JNum 3) st))).
Proof.
  split; [split|split; [|split]].
  - reflexivity.
  - intros (ok & data & n & Hr & _). discriminate Hr.
  - reflexivity.
  - reflexivity.
  - vm_compute. discriminate.
Qed.

(** C1, amended.  In [script.js], when the status read of an evaluation
    resolves, the banner is shown exactly when the count just read is a
    number greater than zero equal to [correctAnswers.size]; it is then
    shown together with a hidden quiz panel, and it is hidden otherwise;
    the stored [totalQuestions] plays no part.  When the read is rejected
    the page is left as it was.  In [static/script.js] the evaluation
    sends no request, shows the banner when the stored [totalQuestions]
    passes the same test, and never hides it. *)
Theorem clear_condition_decision (ok : bool) (data : Json) (st : State) :
  let st' := Script.checkClearCondition_resume (Resolved ok data) st in
  (banner_shown st' ↔ fresh_count_clears (Resolved ok data) st)
  ∧ (banner_shown st' ∨ clearMessage_hidden (dom st') = true)
  ∧ (if clearMessage_hidden (dom st')
     then quizContainer_hidden (dom st') = quizContainer_hidden (dom st)
     else quizContainer_hidden (dom st') = true)
  ∧ (∀ v, dom (Script.checkClearCondition_resume (Resolved ok data)
                 (set_totalQuestions v st)) = dom st')
  ∧ dom (Script.checkClearCondition_resume Rejected st) = dom st
  ∧ (let st'' := StaticScript.checkClearCondition st in
     requests (runtime st'') = requests (runtime st)
     ∧ (banner_shown st'' ↔
          banner_shown st
          ∨ ∃ n, totalQuestions (session st) = JNum n ∧ 0 < n
                 ∧ Z.of_nat (size (correctAnswers (session st))) = n)).
Proof.
  unfold banner_shown, fresh_count_clears. simpl.
  pose proof (clear_test_spec (unlocked_question data)
                (Z.of_nat (size (correctAnswers (session st))))) as Hroot.
  pose proof (clear_test_spec (totalQuestions (session st))
                (Z.of_nat (size (correctAnswers (session st))))) as Hstatic.
  split; [|split; [|split; [|split; [|split; [|split]]]]].
  - clear Hstatic.
    destruct (js_gt (unlocked_question data) 0 && _); simpl.
    + split; [|done]. intros _.
      destruct (proj1 Hroot eq_refl) as (n & ? & ? & ?).
      exists ok, data, n. done.
    + split; [discriminate|].
      intros (ok' & data' & n & Hr & Hn & Hpos & Hsz).
      injection Hr as <- <-. symmetry. apply Hroot. eauto.
  - destruct (js_gt (unlocked_question data) 0 && _); simpl; auto.
  - destruct (js_gt (unlocked_question data) 0 && _); reflexivity.
  - intros v. simpl.
    destruct (js_gt (unlocked_question data) 0 && _); reflexivity.
  - reflexivity.
  - unfold StaticScript.checkClearCondition. simpl.
    destruct (js_gt (totalQuestions (session st)) 0 && _); reflexivity.
  - clear Hroot. unfold StaticScript.checkClearCondition. simpl.
    destruct (js_gt (totalQuestions (session st)) 0 && _); simpl.
    + split; [|done]. intros _. right. by apply Hstatic.
    + split; [by left|]. intros [H|H]; [done|].
      apply Hstatic in H. discriminate H.
Qed.

(** ** Re-synchronisation after a submission *)

(** C2, as the claim has it, fails on a transport failure: the two calls
    sit inside the [try], so the [catch] of [submitAnswer] runs neither.
    One answer is in flight, the request is rejected, and afterwards no
    function was entered, no request was sent and nothing is parked. *)
Lemma resync_counterexample :
  let st := set_pending [AwaitAnswer 1 "a"] (showing 1 ["a"; "b"] page_load) in
  (let st' := step Script.program st (Respond 0 Rejected) in
   calls (runtime st') = [] ∧ requests (runtime st') = []
   ∧ pending (runtime st') = [])
  ∧ (let st' := step StaticScript.program st (Respond 0 Rejected) in
     calls (runtime st') = [] ∧ requests (runtime st') = []
     ∧ pending (runtime st') = []).
Proof. repeat split; reflexivity. Qed.

(** C2, amended.  When a submission receives a decoded reply, whatever
    the verdict, [submitAnswer] handles the verdict and then calls
    [checkClearCondition] and [checkStatus], in that order; in
    [script.js] each of them sends its status request and parks, leaving
    the page as the verdict left it.  When the request is rejected,
    neither is called and no request is sent. *)
Theorem resync_after_verdict (q_id : Z) (answer : string) (ok : bool)
    (data : Json) (st : State) :
  (let st' := Script.submitAnswer_resume q_id answer (Resolved ok data) st in
   calls (runtime st')
     = calls (runtime st) ++ [CallCheckClearCondition; CallCheckStatus]
   ∧ requests (runtime st') = requests (runtime st) ++ [GetStatus; GetStatus]
   ∧ pending (runtime st') = pending (runtime st) ++ [AwaitClear; AwaitStatus]
   ∧ session st' = session (Script.verdict q_id data st)
   ∧ dom st' = dom (Script.verdict q_id data st))
  ∧ (let st' := Script.submitAnswer_resume q_id answer Rejected st in
     calls (runtime st') = calls (runtime st)
     ∧ requests (runtime st') = requests (runtime st)
     ∧ pending (runtime st') = pending (runtime st))
  ∧ (let st' := StaticScript.submitAnswer_resume q_id answer (Resolved ok data) st in
     calls (runtime st')
       = calls (runtime st) ++ [CallCheckClearCondition; CallCheckStatus]
     ∧ requests (runtime st') = requests (runtime st) ++ [GetStatus]
     ∧ pending (runtime st') = pending (runtime st) ++ [AwaitStatus]
     ∧ session st' = session (StaticScript.verdict q_id data st))
  ∧ (let st' := StaticScript.submitAnswer_resume q_id answer Rejected st in
     calls (runtime st') = calls (runtime st)
     ∧ requests (runtime st') = requests (runtime st)
     ∧ pending (runtime st') = pending (runtime st)).
Proof.
  split; [|split; [|split]].
  - unfold Script.submitAnswer_resume, Script.verdict. simpl.
    destruct (truthy (correct data)); simpl;
      rewrite <- ?(assoc_L (++)); done.
  - done.
  - unfold StaticScript.submitAnswer_resume, StaticScript.verdict,
      StaticScript.checkClearCondition. simpl.
    destruct (truthy (correct data)); simpl;
      repeat match goal with
             | |- context [if ?c then _ else _] => destruct c; simpl
             end;
      rewrite <- ?(assoc_L (++)); done.
  - done.
Qed.

(** ** The set of correct answers only grows *)

Ltac branches :=
  repeat match goal with
         | |- context [match ?x with _ => _ end] => destruct x; simpl
         end.

Lemma script_resume_mono (p : Pending) (r : Response) (st : State) :
  correctAnswers (session st)
    ⊆ correctAnswers (session (Script.resume p r st)).
Proof.
  destruct p; simpl;
    unfold Script.checkStatus_resume, Script.updateQuestionList_resume,
      Script.loadQuestion_resume, Script.submitAnswer_resume,
      Script.checkClearCondition_resume, Script.verdict; simpl;
    branches; set_solver.
Qed.

Lemma static_resume_mono (p : Pending) (r : Response) (st : State) :
  correctAnswers (session st)
    ⊆ correctAnswers (session (StaticScript.resume p r st)).
Proof.
  destruct p; simpl;
    unfold StaticScript.checkStatus_resume, StaticScript.loadQuestion_resume,
      StaticScript.submitAnswer_resume, StaticScript.checkClearCondition,
      StaticScript.verdict; simpl;
    branches; set_solver.
Qed.

Section Monotone.

Variable P : Program.
Hypothesis HP : P = Script.program ∨ P = StaticScript.program.

Lemma step_mono (st : State) (e : Event) :
  correctAnswers (session st) ⊆ correctAnswers (session (step P st e)).
Proof.
  destruct e as [dt| |i|i|k r|k]; simpl.
  - destruct (0 <=? dt); set_solver.
  - destruct (interval (runtime st) <=? clock (runtime st)); [|done].
    destruct HP as [-> | ->]; done.
  - destruct (questionListDiv (dom st) !! i) as [b|]; [|done].
    destruct (btn_disabled b); [done|].
    destruct (btn_onclick b) as [q|]; [|done].
    destruct HP as [-> | ->]; simpl;
      unfold Script.loadQuestion, StaticScript.loadQuestion; simpl;
      branches; set_solver.
  - destruct (optionsContainer (dom st) !! i) as [b|]; [|done].
    destruct (opt_disabled b); [done|].
    destruct HP as [-> | ->]; done.
  - destruct (pending (runtime st) !! k) as [p|]; [|done].
    destruct HP as [-> | ->]; simpl.
    + apply (script_resume_mono p r (set_pending _ st)).
    + apply (static_resume_mono p r (set_pending _ st)).
  - destruct (timeouts (runtime st) !! k) as [due|]; [|done].
    destruct (due <=? clock (runtime st)); [|done].
    destruct HP as [-> | ->]; done.
Qed.

Lemma run_mono (evs : list Event) (st : State) :
  correctAnswers (session st) ⊆ correctAnswers (session (run P st evs)).
Proof.
  revert st. induction evs as [|e evs IH]; intros st; simpl; [done|].
  etrans; [apply (step_mono st e)|apply IH].
Qed.

End Monotone.

(** C3.  In either script, once the reply to [submitAnswer(q_id, answer)]
    carries a truthy [correct], [q_id] is in [correctAnswers], and it is
    still there after any further sequence of events, whatever the server
    says later about the visibility of that question; more generally
    nothing that is in the set ever leaves it. *)
Theorem correct_verdict_is_permanent (P : Program) (st : State) (k : nat)
    (q_id : Z) (answer : string) (ok : bool) (data : Json) (evs : list Event) :
  P = Script.program ∨ P = StaticScript.program →
  pending (runtime st) !! k = Some (AwaitAnswer q_id answer) →
  truthy (correct data) = true →
  let st1 := step P st (Respond k (Resolved ok data)) in
  q_id ∈ correctAnswers (session st1)
  ∧ q_id ∈ correctAnswers (session (run P st1 evs))
  ∧ (∀ st0 evs0,
       correctAnswers (session st0)
         ⊆ correctAnswers (session (run P st0 evs0))).
Proof.
  intros HP Hk Hc st1.
  assert (q_id ∈ correctAnswers (session st1)) as Hin.
  { subst st1. simpl. rewrite Hk.
    destruct HP as [-> | ->]; simpl.
    - unfold Script.submitAnswer_resume, Script.verdict. rewrite Hc. simpl.
      set_solver.
    - unfold StaticScript.submitAnswer_resume, StaticScript.verdict,
        StaticScript.checkClearCondition.
      rewrite Hc. simpl. branches; set_solver. }
  split; [done|]. split.
  - by apply (run_mono P HP evs st1).
  - intros st0 evs0. by apply run_mono.
Qed.

(** The question of a correct answer is later reported as not public, the
    clear-condition read is rejected and another poll starts: the id
    stays. *)
Lemma correct_verdict_is_permanent_witness :
  let st := set_pending [AwaitAnswer 3 "x"] (showing 3 ["x"; "y"] page_load) in
  let evs := [Respond 1 (Resolved true (status_json 3 2));
              Respond 1 (Resolved true
                (questions_json [{| id := 3; is_public := false |};
                                 {| id := 1; is_public := true |}]));
              Advance 5000; Tick; Respond 0 Rejected] in
  let st1 := step Script.program st (Respond 0 (Resolved true (verdict_json true))) in
  pending (runtime st) !! 0%nat = Some (AwaitAnswer 3 "x")
  ∧ 3 ∈ correctAnswers (session st1)
  ∧ 3 ∈ correctAnswers (session (run Script.program st1 evs)).
Proof.
  intros st evs st1. split; [reflexivity|].
  pose proof (correct_verdict_is_permanent Script.program st 0 3 "x" true
                (verdict_json true) evs (or_introl eq_refl) eq_refl eq_refl)
    as (H1 & H2 & _).
  split; [exact H1|exact H2].
Defined.

(** ** Loading a question *)

(** C4.  In either script, [loadQuestion(q_id)] for a [q_id] that is in
    [correctAnswers] sends no request and parks nothing: it shows the
    notice that the question was already answered, the bare label of the
    question and no options, and returns. *)
Theorem load_of_answered_short_circuits (q_id : Z) (st : State) :
  q_id ∈ correctAnswers (session st) →
  (let st' := Script.loadQuestion q_id st in
   requests (runtime st') = requests (runtime st)
   ∧ pending (runtime st') = pending (runtime st)
   ∧ resultMessage_text (dom st') = "この問題はすでに正解済みです。"
   ∧ questionText (dom st') = label q_id
   ∧ optionsContainer (dom st') = []
   ∧ session st' = session st)
  ∧ (let st' := StaticScript.loadQuestion q_id st in
     requests (runtime st') = requests (runtime st)
     ∧ pending (runtime st') = pending (runtime st)
     ∧ resultMessage_text (dom st') = "この問題はすでに正解済みです。"
     ∧ questionText (dom st') = label q_id
     ∧ optionsContainer (dom st') = []
     ∧ session st' = session st).
Proof.
  intros Hin.
  unfold Script.loadQuestion, StaticScript.loadQuestion. simpl.
  destruct (decide (q_id ∈ correctAnswers (session st))); [|done].
  repeat split.
Qed.

Lemma load_of_answered_short_circuits_witness :
  let st := answered (JNum 3) [1; 2] page_load in
  2 ∈ correctAnswers (session st)
  ∧ requests (runtime (Script.loadQuestion 2 st)) = []
  ∧ questionText (dom (Script.loadQuestion 2 st)) = "第2問"
  ∧ requests (runtime (StaticScript.loadQuestion 2 st)) = []
  ∧ questionText (dom (StaticScript.loadQuestion 2 st)) = "第2問".
Proof.
  intros st.
  assert (2 ∈ correctAnswers (session st)) as Hin by (vm_compute; set_solver).
  split; [exact Hin|].
  pose proof (load_of_answered_short_circuits 2 st Hin)
    as ((H1 & _ & _ & H2 & _) & (H3 & _ & _ & H4 & _)).
  split; [exact H1|]. split; [exact H2|]. split; [exact H3|exact H4].
Defined.

(** C9, as the claim has it, fails in [static/script.js]: the [catch] of
    its [loadQuestion] only logs, so after a rejected request (or a reply
    that is not [ok]) a hidden question panel is still hidden. *)
Lemma load_failure_counterexample :
  let st := StaticScript.loadQuestion 1 page_load in
  pending (runtime st) = [AwaitQuestion 1]
  ∧ quizContainer_hidden
      (dom (step StaticScript.program st (Respond 0 Rejected))) = true
  ∧ quizContainer_hidden
      (dom (step StaticScript.program st
              (Respond 0 (Resolved false (error_json "not public"))))) = true.
Proof. repeat split; reflexivity. Qed.

(** C9, amended.  In [script.js] every branch of [loadQuestion] leaves
    the question panel shown: the guard for an answered question, the
    rendering of a fetched question, the display of a server error and
    the [catch].  In [static/script.js] the guard and the rendering show
    the panel; every failure leaves the panel as it was. *)
Theorem load_shows_panel (q_id : Z) (r : Response) (st : State) :
  quizContainer_hidden (dom (Script.loadQuestion_resume q_id r st)) = false
  ∧ (if decide (q_id ∈ correctAnswers (session st))
     then quizContainer_hidden (dom (Script.loadQuestion q_id st)) = false
          ∧ quizContainer_hidden (dom (StaticScript.loadQuestion q_id st)) = false
     else pending (runtime (Script.loadQuestion q_id st))
            = pending (runtime st) ++ [AwaitQuestion q_id]
          ∧ pending (runtime (StaticScript.loadQuestion q_id st))
              = pending (runtime st) ++ [AwaitQuestion q_id])
  ∧ quizContainer_hidden (dom (StaticScript.loadQuestion_resume q_id r st))
      = (if loads r then false else quizContainer_hidden (dom st)).
Proof.
  split; [|split].
  - destruct r as [|[] data]; simpl; [done| |done].
    destruct (image data) as [name|]; simpl;
      [destruct (decide (name = "")); simpl|];
      destruct (options data); done.
  - unfold Script.loadQuestion, StaticScript.loadQuestion. simpl.
    destruct (decide (q_id ∈ correctAnswers (session st))); done.
  - destruct r as [|[] data]; simpl; [done| |done].
    destruct (options data); done.
Qed.

(** ** Failures *)

(** C7, as the claim has it, fails: the statement that disables the
    options runs only once a reply was decoded.  The options of a
    question are enabled, the answer request is rejected, and the options
    are still enabled; [static/script.js] moreover shows no notice. *)
Lemma submit_rejected_counterexample :
  let st := set_pending [AwaitAnswer 1 "a"] (showing 1 ["a"; "b"] page_load) in
  (opt_disabled <$> optionsContainer (dom st)) = [false; false]
  ∧ (opt_disabled
       <$> optionsContainer (dom (step Script.program st (Respond 0 Rejected))))
      = [false; false]
  ∧ dom (step StaticScript.program st (Respond 0 Rejected)) = dom st.
Proof. repeat split; reflexivity. Qed.

(** C7, amended.  When the answer request is rejected, [script.js] shows
    the generic submission-failure notice and leaves every option exactly
    as it was, enabled or disabled, with no timer set and the session
    untouched; [static/script.js] only logs and leaves the whole page as
    it was. *)
Theorem submit_rejected_notice (q_id : Z) (answer : string) (st : State) :
  (let st' := Script.submitAnswer_resume q_id answer Rejected st in
   resultMessage_text (dom st') = "回答の送信中にエラーが発生しました。"
   ∧ resultMessage_class (dom st') = "incorrect"
   ∧ optionsContainer (dom st') = optionsContainer (dom st)
   ∧ timeouts (runtime st') = timeouts (runtime st)
   ∧ session st' = session st)
  ∧ (let st' := StaticScript.submitAnswer_resume q_id answer Rejected st in
     dom st' = dom st
     ∧ timeouts (runtime st') = timeouts (runtime st)
     ∧ session st' = session st
     ∧ console (runtime st') = console (runtime st) ++ ["Error submitting answer:"]).
Proof. repeat split. Qed.

(** C6 fails on the code.  [checkStatus] does not look at [response.ok]
    (the neighbouring [updateQuestionList] and [loadQuestion] do), so a
    failure reported by the server as a JSON body overwrites the stored
    total with [undefined].  What does hold: a rejected request leaves
    the session untouched in every operation of either script, and a
    reply without a truthy [correct] leaves [correctAnswers] as it was. *)
Theorem failed_poll_overwrites_total :
  (let st := set_pending [AwaitStatus] (answered (JNum 3) [1] page_load) in
   let st' := step Script.program st
                (Respond 0 (Resolved false (error_json "unavailable"))) in
   totalQuestions (session st) = JNum 3
   ∧ totalQuestions (session st') = JUndefined)
  ∧ (∀ p st, session (Script.resume p Rejected st) = session st)
  ∧ (∀ p st, session (StaticScript.resume p Rejected st) = session st)
  ∧ (∀ q_id answer ok data st,
       (if truthy (correct data) then True
        else correctAnswers
               (session (Script.submitAnswer_resume q_id answer
                           (Resolved ok data) st))
             = correctAnswers (session st))).
Proof.
  split; [split; reflexivity|]. split; [|split].
  - intros [] st; reflexivity.
  - intros [] st; reflexivity.
  - intros q_id answer ok data st.
    unfold Script.submitAnswer_resume, Script.verdict.
    destruct (truthy (correct data)); done.
Qed.

(** ** Counting instead of comparing *)

(** C10.  The evaluation of [script.js] looks at two numbers only.  For
    any question list whose number of public questions is the count the
    server reports, if that count is positive and equals the number of
    correct answers, the banner is shown and the quiz panel hidden; which
    ids were answered and which ids are public plays no part. *)
Theorem clear_condition_counts_only (qs : list Question) (ok : bool)
    (data : Json) (st : State) :
  unlocked_question data = JNum (Z.of_nat (public_count qs)) →
  (0 < public_count qs)%nat →
  size (correctAnswers (session st)) = public_count qs →
  let st' := Script.checkClearCondition_resume (Resolved ok data) st in
  banner_shown st' ∧ quizContainer_hidden (dom st') = true.
Proof.
  intros Hcount Hpos Hsize st'. subst st'. unfold banner_shown. simpl.
  rewrite Hcount, Hsize. unfold js_gt. simpl.
  replace (0 <? _) with true by (symmetry; apply Z.ltb_lt; lia).
  rewrite Z.eqb_refl. done.
Qed.

(** Question 1 was answered and is no longer public, question 2 is public
    and was never answered: one visible question, one correct answer, and
    the banner is shown. *)
Lemma clear_condition_counts_only_witness :
  let qs := [{| id := 1; is_public := false |}; {| id := 2; is_public := true |}] in
  let st := answered (JNum 2) [1] page_load in
  let st' := Script.checkClearCondition_resume (Resolved true (status_json 2 1)) st in
  1 ∈ correctAnswers (session st) ∧ (2 ∉ correctAnswers (session st))
  ∧ banner_shown st' ∧ quizContainer_hidden (dom st') = true.
Proof.
  intros qs st st'.
  split; [vm_compute; set_solver|]. split; [vm_compute; set_solver|].
  apply (clear_condition_counts_only qs true (status_json 2 1) st);
    [reflexivity | vm_compute; lia | reflexivity].
Defined.

(** ** The question list *)

Lemma insert_by_id_perm (q : Question) (l : list Question) :
  insert_by_id q l ≡ₚ q :: l.
Proof.
  induction l as [|q' l IH]; simpl; [done|].
  destruct (id q <=? id q'); [done|].
  rewrite IH. apply Permutation_swap.
Qed.

Lemma sort_by_id_perm (l : list Question) : sort_by_id l ≡ₚ l.
Proof.
  induction l as [|q l IH]; simpl; [done|].
  rewrite insert_by_id_perm. by rewrite IH.
Qed.

Lemma insert_by_id_sorted (q : Question) (l : list Question) :
  StronglySorted id_le l → StronglySorted id_le (insert_by_id q l).
Proof.
  induction 1 as [|q' l Hl IH Hq']; simpl.
  - repeat constructor.
  - destruct (id q <=? id q') eqn:E.
    + apply Z.leb_le in E. constructor; [by constructor|].
      constructor; [done|].
      eapply Forall_impl; [exact Hq'|]. unfold id_le. intros; simpl in *. lia.
    + apply Z.leb_gt in E. constructor; [done|].
      rewrite insert_by_id_perm. constructor; [unfold id_le; lia|done].
Qed.

Lemma sort_by_id_sorted (l : list Question) :
  StronglySorted id_le (sort_by_id l).
Proof.
  induction l as [|q l IH]; simpl; [constructor|].
  by apply insert_by_id_sorted.
Qed.

Ltac classes :=
  rewrite ?elem_of_cons, ?elem_of_nil; intuition (try discriminate; try done).

(** What one reply renders.  When the list of all questions arrives,
    [updateQuestionList] of [script.js] appends one button per question
    received, in ascending order of id, to the list as that reply finds
    it; if nothing was rendered since the call emptied the list, these
    are its only buttons.  The button of a question that is not public is
    disabled, marked [locked] and has no handler; the button of a public
    question is enabled and its handler loads that question, and it is
    marked [answered] exactly when the id is in [correctAnswers].
    [static/script.js] receives counts instead of questions and builds
    the same buttons for the ids 1..[totalCount], those up to
    [unlockedCount] being the public ones. *)
Theorem question_list_rendering (qs : list Question) (data : Json)
    (publicCount totalCount : JsVal) (st : State) :
  questions data = Some qs →
  let answered := correctAnswers (session st) in
  let shown := sort_by_id qs in
  (shown ≡ₚ qs ∧ StronglySorted id_le shown)
  ∧ questionListDiv
      (dom (Script.updateQuestionList_resume (Resolved true data) st))
    = questionListDiv (dom st) ++ (Script.question_button answered <$> shown)
  ∧ questionListDiv
      (dom (Script.updateQuestionList_resume (Resolved true data)
              (Script.updateQuestionList publicCount totalCount st)))
    = (Script.question_button answered <$> shown)
  ∧ (∀ q, let b := Script.question_button answered q in
          if is_public q
          then btn_disabled b = false ∧ btn_onclick b = Some (id q)
               ∧ ("locked" ∉ btn_classes b)
               ∧ ("answered" ∈ btn_classes b ↔ id q ∈ answered)
          else btn_disabled b = true ∧ btn_onclick b = None
               ∧ "locked" ∈ btn_classes b)
  ∧ (∀ i q, (Script.question_button answered <$> shown) !! i
              = Some (Script.question_button answered q) →
            is_public q = true →
            step Script.program
              (set_questionListDiv (Script.question_button answered <$> shown) st)
              (ClickQuestion i)
            = Script.loadQuestion (id q)
                (set_questionListDiv (Script.question_button answered <$> shown) st))
  ∧ (∀ unlocked total : Z,
       questionListDiv
         (dom (StaticScript.updateQuestionList (JNum unlocked) (JNum total) st))
       = (StaticScript.question_button answered (JNum unlocked) <$> seqZ 1 total)
       ∧ ∀ i, let b := StaticScript.question_button answered (JNum unlocked) i in
              if i <=? unlocked
              then btn_disabled b = false ∧ btn_onclick b = Some i
                   ∧ ("answered" ∈ btn_classes b ↔ i ∈ answered)
              else btn_disabled b = true ∧ btn_onclick b = None
                   ∧ "locked" ∈ btn_classes b).
Proof.
  intros Hqs answered shown.
  split; [split; [apply sort_by_id_perm|apply sort_by_id_sorted]|].
  split; [simpl; by rewrite Hqs|].
  split; [simpl; by rewrite Hqs|].
  split; [|split].
  - intros q b. subst b. unfold Script.question_button.
    destruct (is_public q); simpl.
    + split; [done|]. split; [done|].
      destruct (decide (id q ∈ answered)); classes.
    + classes.
  - intros i q Hi Hpub. simpl. rewrite Hi.
    unfold Script.question_button. rewrite Hpub. reflexivity.
  - intros unlocked total. split; [reflexivity|].
    intros i b. subst b. unfold StaticScript.question_button, js_le. simpl.
    destruct (i <=? unlocked); simpl.
    + split; [done|]. split; [done|].
      destruct (decide (i ∈ answered)); classes.
    + classes.
Qed.

(** Three questions arrive out of order, the second of them not public,
    the first one already answered. *)
Lemma question_list_rendering_witness :
  let qs := [{| id := 3; is_public := true |}; {| id := 1; is_public := true |};
             {| id := 2; is_public := false |}] in
  let st := Script.updateQuestionList (JNum 2) (JNum 3)
              (answered (JNum 3) [1] page_load) in
  questions (questions_json qs) = Some qs
  ∧ (btn_text <$> questionListDiv
        (dom (Script.updateQuestionList_resume
                (Resolved true (questions_json qs)) st)))
    = ["第1問"; "第2問 (非公開)"; "第3問"].
Proof.
  intros qs st. split; [reflexivity|].
  pose proof (question_list_rendering qs (questions_json qs) (JNum 2) (JNum 3)
                st eq_refl) as (_ & H & _).
  rewrite H. vm_compute. reflexivity.
Defined.

(** C8 fails on the code.  [updateQuestionList] of [script.js] empties
    the list when it is called (line 40) and appends its buttons when the
    reply arrives (line 68), so the rebuild is not one turn.  Two polls
    whose list reads overlap, the one of the page load and the one of the
    interval here, each append their buttons: three questions are
    received and the list holds six buttons, in the order 1, 2, 3, 1, 2,
    3.  In general two calls followed by their two replies leave twice as
    many buttons as there are questions.  [static/script.js] rebuilds the
    list within one turn: a second call replaces what the first built. *)
Theorem overlapping_polls_render_twice :
  (let st := run Script.program (boot Script.program page_load)
               [Advance 5000;
                Respond 0 (Resolved true (status_json 3 2));
                Tick;
                Respond 1 (Resolved true (status_json 3 2));
                Respond 0 (Resolved true (questions_json (three_questions false)));
                Respond 0 (Resolved true (questions_json (three_questions false)))] in
   (btn_text <$> questionListDiv (dom st))
   = ["第1問"; "第2問"; "第3問 (非公開)"; "第1問"; "第2問"; "第3問 (非公開)"]
   ∧ (btn_onclick <$> questionListDiv (dom st))
     = [Some 1; Some 2; None; Some 1; Some 2; None]
   ∧ pending (runtime st) = [])
  ∧ (∀ (qs : list Question) (u t u' t' : JsVal) (st : State),
       let reply := Resolved true (questions_json qs) in
       length
         (questionListDiv
            (dom (Script.updateQuestionList_resume reply
                    (Script.updateQuestionList_resume reply
                       (Script.updateQuestionList u' t'
                          (Script.updateQuestionList u t st))))))
       = (2 * length qs)%nat)
  ∧ (∀ (u t u' t' : JsVal) (st : State),
       questionListDiv
         (dom (StaticScript.updateQuestionList u' t'
                 (StaticScript.updateQuestionList u t st)))
       = questionListDiv (dom (StaticScript.updateQuestionList u' t' st))).
Proof.
  split; [repeat split; vm_compute; reflexivity|]. split.
  - intros qs u t u' t' st reply. simpl.
    rewrite length_app, !length_fmap.
    rewrite (Permutation_length (sort_by_id_perm qs)). lia.
  - intros u t u' t' st. reflexivity.
Qed.

(** ** The cooldown after a wrong answer *)

Ltac handlers :=
  unfold Script.resume, StaticScript.resume,
    Script.checkStatus_resume, Script.updateQuestionList_resume,
    Script.loadQuestion_resume, Script.submitAnswer_resume,
    Script.checkClearCondition_resume, Script.verdict, Script.loadQuestion,
    Script.loadQuestion_catch,
    StaticScript.checkStatus_resume, StaticScript.loadQuestion_resume,
    StaticScript.submitAnswer_resume, StaticScript.checkClearCondition,
    StaticScript.verdict, StaticScript.loadQuestion,
    StaticScript.loadQuestion_catch;
  simpl; branches.

Lemma all_disabled_fmap (l : list OptionBtn) :
  Forall (λ o, opt_disabled o = true) (with_disabled true <$> l).
Proof. apply Forall_fmap, Forall_true. done. Qed.

Lemma all_enabled_fmap (l : list OptionBtn) :
  Forall (λ o, opt_disabled o = false) (with_disabled false <$> l).
Proof. apply Forall_fmap, Forall_true. done. Qed.

Section Cooldown.

Variable P : Program.
Hypothesis HP : P = Script.program ∨ P = StaticScript.program.

Lemma step_clock (st : State) (e : Event) :
  clock (runtime st) ≤ clock (runtime (step P st e)).
Proof.
  destruct e as [dt| |i|i|k r|k]; simpl.
  - destruct (0 <=? dt) eqn:E; simpl; lia.
  - destruct (interval (runtime st) <=? clock (runtime st)); [|done].
    destruct HP as [-> | ->]; done.
  - destruct (questionListDiv (dom st) !! i) as [b|]; [|done].
    destruct (btn_disabled b); [done|].
    destruct (btn_onclick b) as [q|]; [|done].
    destruct HP as [-> | ->]; simpl; handlers; done.
  - destruct (optionsContainer (dom st) !! i) as [b|]; [|done].
    destruct (opt_disabled b); [done|].
    destruct HP as [-> | ->]; done.
  - destruct (pending (runtime st) !! k) as [p|]; [|done].
    destruct HP as [-> | ->]; simpl; destruct p; handlers; done.
  - destruct (timeouts (runtime st) !! k) as [due|]; [|done].
    destruct (due <=? clock (runtime st)); [|done].
    destruct HP as [-> | ->]; done.
Qed.

Lemma run_clock (evs : list Event) (st : State) :
  clock (runtime st) ≤ clock (runtime (run P st evs)).
Proof.
  revert st. induction evs as [|e evs IH]; intros st; simpl; [done|].
  etrans; [apply (step_clock st e)|apply IH].
Qed.

Lemma step_cooling (T : Z) (st : State) (e : Event) :
  cooling T st → is_question_click e = false → clock (runtime st) < T →
  cooling T (step P st e).
Proof.
  intros (Hdis & Hdue & Hload & Hnow) He Hlt.
  unfold cooling, all_disabled, cooldowns_from, no_load_pending in *.
  destruct e as [dt| |i|i|k r|k]; simpl; try discriminate He.
  - destruct (0 <=? dt) eqn:E; simpl; [|done].
    apply Z.leb_le in E. repeat split; [done..|lia].
  - destruct (interval (runtime st) <=? clock (runtime st)); [|done].
    destruct HP as [-> | ->]; simpl;
      (repeat split; [done..| |done]);
      (apply Forall_app; split; [done|by repeat constructor]).
  - destruct (optionsContainer (dom st) !! i) as [b|] eqn:Eb; [|done].
    destruct (opt_disabled b) eqn:Ed; [done|].
    rewrite (Forall_lookup_1 _ _ _ _ Hdis Eb) in Ed. discriminate Ed.
  - destruct (pending (runtime st) !! k) as [p|] eqn:Ep; [|done].
    pose proof (Forall_lookup_1 _ _ _ _ Hload Ep) as Hp.
    pose proof (Forall_delete _ _ k Hload) as Hdel.
    destruct HP as [-> | ->]; simpl; destruct p; try discriminate Hp;
      handlers;
      (repeat split;
       [ first [done | apply all_disabled_fmap]
       | first [done | apply Forall_app; split;
                       [done | repeat constructor; lia]]
       | first [done | rewrite <- ?(assoc_L (++)); apply Forall_app; split;
                       [done | by repeat constructor]]
       | done ]).
  - destruct (timeouts (runtime st) !! k) as [due|] eqn:Ek; [|done].
    destruct (due <=? clock (runtime st)) eqn:E; [|done].
    apply Z.leb_le in E.
    pose proof (Forall_lookup_1 _ _ _ _ Hdue Ek). simpl in *. lia.
Qed.

Lemma run_cooling (T : Z) (evs : list Event) (st : State) :
  cooling T st → no_question_click evs → clock (runtime (run P st evs)) < T →
  cooling T (run P st evs).
Proof.
  revert st. induction evs as [|e evs IH]; intros st Hc Hq Hlt; simpl in *;
    [done|].
  apply Forall_cons in Hq as [He Hq].
  pose proof (run_clock evs (step P st e)).
  pose proof (step_clock st e).
  apply IH; [|done|done].
  apply step_cooling; [done|done|lia].
Qed.

End Cooldown.

(** C5, as the claim has it, fails when cooldowns overlap.  Two answers
    to question 1 are in flight.  The first wrong verdict arrives at time
    0, the second at time 1500; at time 2000 the callback of the first
    one runs, enables the options and clears the notice, 500 after the
    second wrong verdict. *)
Lemma cooldown_overlap_counterexample :
  let st := set_pending [AwaitAnswer 1 "a"; AwaitAnswer 1 "b"]
              (showing 1 ["a"; "b"] page_load) in
  let wrong := Resolved true (verdict_json false) in
  let st2 := run Script.program st [Respond 0 wrong; Advance 1500; Respond 0 wrong] in
  let st3 := run Script.program st2 [Advance 500; Fire 0] in
  clock (runtime st2) = 1500
  ∧ (opt_disabled <$> optionsContainer (dom st2)) = [true; true]
  ∧ resultMessage_text (dom st2) = "不正解... 再挑戦してみてください。"
  ∧ clock (runtime st3) = 2000
  ∧ (opt_disabled <$> optionsContainer (dom st3)) = [false; false]
  ∧ resultMessage_text (dom st3) = ""
  ∧ timeouts (runtime st3) = [3500].
Proof. repeat split; reflexivity. Qed.

(** C5, amended.  In either script, when the reply to a submission
    carries no truthy [correct], every option is disabled at once, the
    failure notice is displayed and exactly one callback is scheduled,
    due 2000 after the verdict.  A callback runs only once it is due and
    is then gone; it enables every option and clears the notice.  If no
    callback of an earlier submission is due before that of this one and
    no question is loaded in the meantime, the options stay disabled for
    as long as the clock is less than 2000 past the verdict. *)
Theorem incorrect_verdict_cooldown (P : Program) (st : State) (k : nat)
    (q_id : Z) (answer : string) (ok : bool) (data : Json) (evs : list Event) :
  P = Script.program ∨ P = StaticScript.program →
  pending (runtime st) !! k = Some (AwaitAnswer q_id answer) →
  truthy (correct data) = false →
  let due := clock (runtime st) + 2000 in
  let st1 := step P st (Respond k (Resolved ok data)) in
  all_disabled st1
  ∧ resultMessage_text (dom st1) = "不正解... 再挑戦してみてください。"
  ∧ timeouts (runtime st1) = timeouts (runtime st) ++ [due]
  ∧ (cooldowns_from due st → no_load_pending st → no_question_click evs →
     clock (runtime (run P st1 evs)) < due →
     all_disabled (run P st1 evs))
  ∧ (∀ st2 j t, timeouts (runtime st2) !! j = Some t →
       let st3 := step P st2 (Fire j) in
       if t <=? clock (runtime st2)
       then all_enabled st3 ∧ resultMessage_text (dom st3) = ""
            ∧ timeouts (runtime st3) = delete j (timeouts (runtime st2))
       else st3 = st2).
Proof.
  intros HP Hk Hc due st1.
  assert (all_disabled st1
          ∧ resultMessage_text (dom st1) = "不正解... 再挑戦してみてください。"
          ∧ timeouts (runtime st1) = timeouts (runtime st) ++ [due]
          ∧ (pending (runtime st1)
               = delete k (pending (runtime st)) ++ [AwaitClear; AwaitStatus]
             ∨ pending (runtime st1)
               = delete k (pending (runtime st)) ++ [AwaitStatus]))
    as (Hdis & Htext & Htime & Hpend).
  { subst st1 due. unfold all_disabled. simpl. rewrite Hk.
    destruct HP as [-> | ->]; simpl.
    - unfold Script.submitAnswer_resume, Script.verdict. rewrite Hc. simpl.
      rewrite <- (assoc_L (++)). split; [apply all_disabled_fmap|].
      split; [done|]. split; [done|]. by left.
    - unfold StaticScript.submitAnswer_resume, StaticScript.verdict,
        StaticScript.checkClearCondition.
      rewrite Hc. simpl. branches;
        (split; [apply all_disabled_fmap|]; split; [done|]; split; [done|];
         by right). }
  split; [done|]. split; [done|]. split; [done|]. split.
  - intros Hdue Hload Hclick Hlt.
    apply (run_cooling P HP due evs st1); [|done|done].
    split; [done|]. split; [|split].
    + unfold cooldowns_from in *. rewrite Htime.
      apply Forall_app. split; [done|]. by repeat constructor.
    + unfold no_load_pending in *.
      destruct Hpend as [-> | ->];
        (apply Forall_app; split;
         [by apply Forall_delete|by repeat constructor]).
    + pose proof (step_clock P HP st (Respond k (Resolved ok data))).
      subst due st1. lia.
  - intros st2 j t Hj st3. subst st3. simpl. rewrite Hj.
    destruct (t <=? clock (runtime st2)); [|done].
    destruct HP as [-> | ->]; simpl;
      (split; [apply all_enabled_fmap|done]).
Qed.

(** One wrong answer to question 2, with the clear-condition read and the
    reply to a second submission interleaved: 1999 after the verdict the
    options are still disabled. *)
Lemma incorrect_verdict_cooldown_witness :
  let st := set_pending [AwaitAnswer 2 "b"; AwaitAnswer 2 "a"]
              (showing 2 ["a"; "b"] page_load) in
  let evs := [Advance 1000; Respond 1 (Resolved true (status_json 3 2));
              Respond 0 (Resolved true (verdict_json true)); Fire 0;
              ClickOption 0; Advance 999] in
  let st1 := step Script.program st (Respond 0 (Resolved true (verdict_json false))) in
  pending (runtime st) !! 0%nat = Some (AwaitAnswer 2 "b")
  ∧ clock (runtime (run Script.program st1 evs)) = 1999
  ∧ all_disabled st1
  ∧ timeouts (runtime st1) = [2000]
  ∧ all_disabled (run Script.program st1 evs).
Proof.
  intros st evs st1. split; [reflexivity|]. split; [reflexivity|].
  pose proof (incorrect_verdict_cooldown Script.program st 0 2 "b" true
                (verdict_json false) evs (or_introl eq_refl) eq_refl eq_refl)
    as (H1 & _ & H3 & H4 & _).
  split; [exact H1|]. split; [exact H3|].
  apply H4.
  - constructor.
  - repeat constructor.
  - repeat constructor.
  - vm_compute. reflexivity.
Defined.

(** * Further properties of the two scripts *)

(** ** An answered question is not fetched again *)

Lemma fetches_of_app (q_id : Z) (l1 l2 : list Request) :
  fetches_of q_id (l1 ++ l2) = (fetches_of q_id l1 + fetches_of q_id l2)%nat.
Proof. unfold fetches_of. by rewrite filter_app, length_app. Qed.

Lemma fetches_of_snoc (q_id : Z) (l : list Request) (req : Request) :
  is_fetch_of q_id req = false →
  fetches_of q_id (l ++ [req]) = fetches_of q_id l.
Proof.
  intros Hreq. rewrite fetches_of_app. unfold fetches_of at 2.
  rewrite filter_cons_False; [simpl; lia|]. by rewrite Hreq.
Qed.

Lemma fetches_of_other (q_id q : Z) (l : list Request) :
  q ≠ q_id → fetches_of q_id (l ++ [GetQuestion q]) = fetches_of q_id l.
Proof.
  intros Hne. apply fetches_of_snoc. simpl. by rewrite bool_decide_eq_false_2.
Qed.

Section Fetches.

Variable P : Program.
Hypothesis HP : P = Script.program ∨ P = StaticScript.program.

Lemma step_fetches (q_id : Z) (st : State) (e : Event) :
  q_id ∈ correctAnswers (session st) →
  fetches_of q_id (requests (runtime (step P st e)))
  = fetches_of q_id (requests (runtime st)).
Proof.
  intros Hin.
  destruct e as [dt| |i|i|k r|k]; simpl.
  - destruct (0 <=? dt); done.
  - destruct (interval (runtime st) <=? clock (runtime st)); [|done].
    destruct HP as [-> | ->]; simpl; by rewrite fetches_of_snoc.
  - destruct (questionListDiv (dom st) !! i) as [b|]; [|done].
    destruct (btn_disabled b); [done|].
    destruct (btn_onclick b) as [q|]; [|done].
    destruct HP as [-> | ->]; simpl;
      unfold Script.loadQuestion, StaticScript.loadQuestion; simpl;
      (destruct (decide (q ∈ correctAnswers (session st))); simpl; [done|]);
      apply fetches_of_other; intros ->; done.
  - destruct (optionsContainer (dom st) !! i) as [b|]; [|done].
    destruct (opt_disabled b); [done|].
    destruct HP as [-> | ->]; simpl; by rewrite fetches_of_snoc.
  - destruct (pending (runtime st) !! k) as [p|]; [|done].
    destruct HP as [-> | ->]; simpl; destruct p; handlers;
      rewrite ?(assoc_L (++)), ?fetches_of_snoc; done.
  - destruct (timeouts (runtime st) !! k) as [due|]; [|done].
    destruct (due <=? clock (runtime st)); [|done].
    destruct HP as [-> | ->]; done.
Qed.

Lemma run_fetches (q_id : Z) (evs : list Event) (st : State) :
  q_id ∈ correctAnswers (session st) →
  fetches_of q_id (requests (runtime (run P st evs)))
  = fetches_of q_id (requests (runtime st)).
Proof.
  revert st. induction evs as [|e evs IH]; intros st Hin; simpl; [done|].
  rewrite IH; [by apply step_fetches|].
  by apply (step_mono P HP st e).
Qed.

End Fetches.

(** X1.  In either script, once [q_id] is in [correctAnswers], no later
    sequence of events sends another request for the detail of that
    question: the number of such requests in the trace stays what it
    was. *)
Theorem answered_question_never_fetched_again (P : Program) (q_id : Z)
    (st : State) (evs : list Event) :
  P = Script.program ∨ P = StaticScript.program →
  q_id ∈ correctAnswers (session st) →
  fetches_of q_id (requests (runtime (run P st evs)))
  = fetches_of q_id (requests (runtime st)).
Proof. intros HP Hin. by apply run_fetches. Qed.

(** Question 1 is answered; its button is clicked twice and question 2 is
    loaded: one request, for question 2. *)
Lemma answered_question_never_fetched_again_witness :
  let st := Script.updateQuestionList_resume
              (Resolved true (questions_json (three_questions false)))
              (answered (JNum 3) [1] page_load) in
  let evs := [ClickQuestion 0; ClickQuestion 1; ClickQuestion 0] in
  1 ∈ correctAnswers (session st)
  ∧ requests (runtime (run Script.program st evs)) = [GetQuestion 2]
  ∧ fetches_of 1 (requests (runtime (run Script.program st evs))) = 0%nat.
Proof.
  intros st evs.
  assert (1 ∈ correctAnswers (session st)) as Hin by (vm_compute; set_solver).
  split; [exact Hin|]. split; [vm_compute; reflexivity|].
  rewrite (answered_question_never_fetched_again Script.program 1 st evs
             (or_introl eq_refl) Hin).
  reflexivity.
Defined.

(** ** What a loaded question offers *)

(** X2.  When the detail of a question arrives with its options, either
    script shows one enabled button per option, in the order received,
    whatever was shown before; a click on the [i]-th button submits
    exactly that option for exactly that question: one answer request
    leaves, one activation is parked and the page itself is unchanged.
    [script.js] shows the image named by the body, or none if the body
    names none, whatever image was shown before. *)
Theorem loaded_options_submit (q_id : Z) (data : Json) (opts : list string)
    (i : nat) (o : string) (st : State) :
  options data = Some opts →
  opts !! i = Some o →
  (let st1 := Script.loadQuestion_resume q_id (Resolved true data) st in
   let st2 := step Script.program st1 (ClickOption i) in
   (opt_text <$> optionsContainer (dom st1)) = opts
   ∧ all_enabled st1
   ∧ quizImage (dom st1)
     = match image data with
       | Some name =>
           if decide (name = "") then None
           else Some ("/static/images/" +:+ name)
       | None => None
       end
   ∧ requests (runtime st2) = requests (runtime st1) ++ [PostAnswer q_id o]
   ∧ pending (runtime st2) = pending (runtime st1) ++ [AwaitAnswer q_id o]
   ∧ dom st2 = dom st1 ∧ session st2 = session st1)
  ∧ (let st1 := StaticScript.loadQuestion_resume q_id (Resolved true data) st in
     let st2 := step StaticScript.program st1 (ClickOption i) in
     (opt_text <$> optionsContainer (dom st1)) = opts
     ∧ all_enabled st1
     ∧ quizImage (dom st1) = quizImage (dom st)
     ∧ requests (runtime st2) = requests (runtime st1) ++ [PostAnswer q_id o]
     ∧ pending (runtime st2) = pending (runtime st1) ++ [AwaitAnswer q_id o]
     ∧ dom st2 = dom st1 ∧ session st2 = session st1).
Proof.
  intros Hopts Hi.
  assert ((opt_text <$> (option_button q_id <$> opts)) = opts) as Htext.
  { rewrite <- list_fmap_compose. apply list_fmap_id. }
  assert (Forall (λ b, opt_disabled b = false) (option_button q_id <$> opts))
    as Hen by (apply Forall_fmap, Forall_true; done).
  assert ((option_button q_id <$> opts) !! i = Some (option_button q_id o))
    as Hb by (by rewrite list_lookup_fmap, Hi).
  split.
  - unfold all_enabled. simpl. rewrite Hopts.
    destruct (image data) as [name|]; simpl;
      [destruct (decide (name = "")); simpl|];
      rewrite Hb; simpl; done.
  - unfold all_enabled. simpl. rewrite Hopts. simpl. rewrite Hb. simpl. done.
Qed.

Lemma loaded_options_submit_witness :
  let data := question_json "1+1?" ["2"; "3"] (Some "sum.png") in
  let st := set_quizImage (Some "/static/images/old.png") page_load in
  let st1 := Script.loadQuestion_resume 4 (Resolved true data) st in
  options data = Some ["2"; "3"]
  ∧ quizImage (dom st1) = Some "/static/images/sum.png"
  ∧ requests (runtime (step Script.program st1 (ClickOption 1)))
    = [PostAnswer 4 "3"].
Proof.
  intros data st st1. split; [reflexivity|].
  pose proof (loaded_options_submit 4 data ["2"; "3"] 1 "3" st eq_refl eq_refl)
    as ((_ & _ & H1 & H2 & _) & _).
  split; [exact H1|exact H2].
Defined.

(** X3.  In [script.js] a load that fails leaves nothing to answer.  A
    reply that is not [ok] shows the error text of its body (nothing if
    the body has none) and removes the image; a rejected request shows
    the generic notice and leaves the image of the previous question in
    place.  In both cases the notice has the class [incorrect], the
    question text is the bare label, the options are gone, and so a click
    on any option position does nothing. *)
Theorem failed_load_offers_nothing (q_id : Z) (errorData : Json) (i : nat)
    (st : State) :
  (let st1 := Script.loadQuestion_resume q_id (Resolved false errorData) st in
   resultMessage_text (dom st1) = default "" (error errorData)
   ∧ resultMessage_class (dom st1) = "incorrect"
   ∧ questionText (dom st1) = label q_id
   ∧ quizImage (dom st1) = None
   ∧ optionsContainer (dom st1) = []
   ∧ step Script.program st1 (ClickOption i) = st1)
  ∧ (let st1 := Script.loadQuestion_resume q_id Rejected st in
     resultMessage_text (dom st1) = "問題の読み込み中にエラーが発生しました。"
     ∧ resultMessage_class (dom st1) = "incorrect"
     ∧ questionText (dom st1) = label q_id
     ∧ quizImage (dom st1) = quizImage (dom st)
     ∧ optionsContainer (dom st1) = []
     ∧ step Script.program st1 (ClickOption i) = st1)
  ∧ session (Script.loadQuestion_resume q_id (Resolved false errorData) st)
    = session st
  ∧ session (Script.loadQuestion_resume q_id Rejected st) = session st.
Proof. repeat split. Qed.

(** X4.  A body that is [ok] but carries no [options] is noticed only
    after part of the page was rewritten.  [script.js] ends in its
    [catch]: generic notice, bare label, no options, panel shown, but the
    image is already the one the body names.  [static/script.js] has by
    then replaced the question text, emptied the options and cleared the
    notice, and it leaves the panel hidden if it was. *)
Theorem question_body_without_options (q_id : Z) (data : Json) (st : State) :
  options data = None →
  (let st1 := Script.loadQuestion_resume q_id (Resolved true data) st in
   resultMessage_text (dom st1) = "問題の読み込み中にエラーが発生しました。"
   ∧ questionText (dom st1) = label q_id
   ∧ optionsContainer (dom st1) = []
   ∧ quizContainer_hidden (dom st1) = false
   ∧ quizImage (dom st1)
     = match image data with
       | Some name =>
           if decide (name = "") then None
           else Some ("/static/images/" +:+ name)
       | None => None
       end)
  ∧ (let st1 := StaticScript.loadQuestion_resume q_id (Resolved true data) st in
     questionText (dom st1)
       = label q_id +:+ ": " +:+ default "undefined" (question data)
     ∧ optionsContainer (dom st1) = []
     ∧ resultMessage_text (dom st1) = ""
     ∧ quizContainer_hidden (dom st1) = quizContainer_hidden (dom st)).
Proof.
  intros Hopts. simpl. rewrite Hopts. split; [|done].
  destruct (image data) as [name|]; simpl;
    [destruct (decide (name = "")); simpl|]; done.
Qed.

Lemma question_body_without_options_witness :
  let data := error_json "no such question" in
  let st := showing 1 ["a"] page_load in
  options data = None
  ∧ optionsContainer (dom (Script.loadQuestion_resume 2 (Resolved true data) st))
    = []
  ∧ questionText
      (dom (StaticScript.loadQuestion_resume 2 (Resolved true data) st))
    = "第2問: undefined".
Proof.
  intros data st. split; [reflexivity|].
  pose proof (question_body_without_options 2 data st eq_refl)
    as ((_ & _ & H1 & _) & (H2 & _)).
  split; [exact H1|exact H2].
Defined.

(** ** Clicks on the options *)

(** X5.  Nothing is disabled at click time.  In either script two clicks
    on an enabled option before any reply send two answer requests for
    the same question and option and park two activations; the page is
    as it was. *)
Theorem repeated_clicks_submit_again (P : Program) (i : nat) (b : OptionBtn)
    (st : State) :
  P = Script.program ∨ P = StaticScript.program →
  optionsContainer (dom st) !! i = Some b →
  opt_disabled b = false →
  let st2 := run P st [ClickOption i; ClickOption i] in
  let post := PostAnswer (opt_onclick b).1 (opt_onclick b).2 in
  let parked := AwaitAnswer (opt_onclick b).1 (opt_onclick b).2 in
  requests (runtime st2) = requests (runtime st) ++ [post; post]
  ∧ pending (runtime st2) = pending (runtime st) ++ [parked; parked]
  ∧ dom st2 = dom st ∧ session st2 = session st.
Proof.
  intros HP Hi Hen. simpl. rewrite Hi, Hen.
  destruct HP as [-> | ->]; simpl; rewrite Hi, Hen; simpl;
    rewrite <- !(assoc_L (++)); done.
Qed.

Lemma repeated_clicks_submit_again_witness :
  let st := showing 1 ["a"; "b"] page_load in
  optionsContainer (dom st) !! 1%nat = Some (option_button 1 "b")
  ∧ requests (runtime (run Script.program st [ClickOption 1; ClickOption 1]))
    = [PostAnswer 1 "b"; PostAnswer 1 "b"].
Proof.
  intros st. split; [reflexivity|].
  pose proof (repeated_clicks_submit_again Script.program 1
                (option_button 1 "b") st (or_introl eq_refl) eq_refl eq_refl)
    as (H & _).
  exact H.
Defined.

Lemma verdict_disables (P : Program) (st : State) (k : nat) (q_id : Z)
    (answer : string) (ok : bool) (data : Json) :
  P = Script.program ∨ P = StaticScript.program →
  pending (runtime st) !! k = Some (AwaitAnswer q_id answer) →
  all_disabled (step P st (Respond k (Resolved ok data))).
Proof.
  intros HP Hk. unfold all_disabled. simpl. rewrite Hk.
  destruct HP as [-> | ->]; simpl; handlers; apply all_disabled_fmap.
Qed.

(** X6.  In either script, once the reply to a submission was decoded,
    whatever its verdict, a click on any option does nothing: no request,
    no change of the page. *)
Theorem decoded_reply_blocks_clicks (P : Program) (st : State) (k i : nat)
    (q_id : Z) (answer : string) (ok : bool) (data : Json) :
  P = Script.program ∨ P = StaticScript.program →
  pending (runtime st) !! k = Some (AwaitAnswer q_id answer) →
  let st1 := step P st (Respond k (Resolved ok data)) in
  step P st1 (ClickOption i) = st1.
Proof.
  intros HP Hk st1.
  pose proof (verdict_disables P st k q_id answer ok data HP Hk) as Hdis.
  fold st1 in Hdis. unfold all_disabled in Hdis.
  simpl. destruct (optionsContainer (dom st1) !! i) as [b|] eqn:Eb; [|done].
  by rewrite (Forall_lookup_1 _ _ _ _ Hdis Eb).
Qed.

Lemma decoded_reply_blocks_clicks_witness :
  let st := set_pending [AwaitAnswer 1 "a"] (showing 1 ["a"; "b"] page_load) in
  let st1 := step StaticScript.program st
               (Respond 0 (Resolved true (verdict_json false))) in
  pending (runtime st) !! 0%nat = Some (AwaitAnswer 1 "a")
  ∧ step StaticScript.program st1 (ClickOption 1) = st1.
Proof.
  intros st st1. split; [reflexivity|].
  exact (decoded_reply_blocks_clicks StaticScript.program st 0 1 1 "a" true
           (verdict_json false) (or_intror eq_refl) eq_refl).
Defined.

(** ** After a correct answer *)

Lemma step_settled (P : Program) (st : State) (e : Event) :
  P = Script.program ∨ P = StaticScript.program →
  settled st → is_question_click e = false → settled (step P st e).
Proof.
  intros HP (Hdis & Htime & Hpend) He.
  unfold settled, all_disabled, no_panel_pending in *.
  destruct e as [dt| |i|i|k r|k]; simpl; try discriminate He.
  - destruct (0 <=? dt); done.
  - destruct (interval (runtime st) <=? clock (runtime st)); [|done].
    destruct HP as [-> | ->]; simpl;
      (split; [done|]; split; [done|]);
      (apply Forall_app; split; [done|by repeat constructor]).
  - destruct (optionsContainer (dom st) !! i) as [b|] eqn:Eb; [|done].
    destruct (opt_disabled b) eqn:Ed; [done|].
    rewrite (Forall_lookup_1 _ _ _ _ Hdis Eb) in Ed. discriminate Ed.
  - destruct (pending (runtime st) !! k) as [p|] eqn:Ep; [|done].
    pose proof (Forall_lookup_1 _ _ _ _ Hpend Ep) as Hp.
    pose proof (Forall_delete _ _ k Hpend) as Hdel.
    destruct HP as [-> | ->]; simpl; destruct p; try discriminate Hp;
      handlers;
      (split; [done|]; split; [done|]);
      first [done | apply Forall_app; split; [done|by repeat constructor]].
  - rewrite Htime. done.
Qed.

Lemma run_settled (P : Program) (evs : list Event) (st : State) :
  P = Script.program ∨ P = StaticScript.program →
  settled st → no_question_click evs → settled (run P st evs).
Proof.
  intros HP. revert st.
  induction evs as [|e evs IH]; intros st Hs Hq; simpl; [done|].
  apply Forall_cons in Hq as [He Hq].
  apply IH; [|done]. by apply step_settled.
Qed.

(** X7.  In either script a correct verdict schedules nothing.  If no
    cooldown is pending when it arrives and no other load or submission
    is in flight, the options it disabled are never enabled again, and
    no answer can be sent from them, for as long as no question button
    is clicked. *)
Theorem correct_answer_is_terminal (P : Program) (st : State) (k : nat)
    (q_id : Z) (answer : string) (ok : bool) (data : Json) (evs : list Event) :
  P = Script.program ∨ P = StaticScript.program →
  pending (runtime st) !! k = Some (AwaitAnswer q_id answer) →
  truthy (correct data) = true →
  timeouts (runtime st) = [] →
  no_panel_pending (delete k (pending (runtime st))) →
  no_question_click evs →
  let st1 := step P st (Respond k (Resolved ok data)) in
  let st2 := run P st1 evs in
  timeouts (runtime st1) = []
  ∧ all_disabled st2
  ∧ timeouts (runtime st2) = []
  ∧ (∀ i, step P st2 (ClickOption i) = st2).
Proof.
  intros HP Hk Hc Htime Hpend Hclick st1 st2.
  assert (settled st1) as Hs1.
  { split; [by eapply verdict_disables|].
    subst st1. unfold no_panel_pending in *. simpl. rewrite Hk.
    destruct HP as [-> | ->]; simpl.
    - unfold Script.submitAnswer_resume, Script.verdict. rewrite Hc. simpl.
      split; [done|]. rewrite <- (assoc_L (++)).
      apply Forall_app. split; [done|by repeat constructor].
    - unfold StaticScript.submitAnswer_resume, StaticScript.verdict,
        StaticScript.checkClearCondition.
      rewrite Hc. simpl. branches;
        (split; [done|]; apply Forall_app; split;
         [done|by repeat constructor]). }
  pose proof (run_settled P evs st1 HP Hs1 Hclick) as (Hdis & Ht2 & _).
  fold st2 in Hdis, Ht2.
  split; [apply Hs1|]. split; [done|]. split; [done|].
  intros i. simpl. unfold all_disabled in Hdis.
  destruct (optionsContainer (dom st2) !! i) as [b|] eqn:Eb; [|done].
  by rewrite (Forall_lookup_1 _ _ _ _ Hdis Eb).
Qed.

Lemma correct_answer_is_terminal_witness :
  let st := set_pending [AwaitStatus; AwaitAnswer 1 "a"]
              (showing 1 ["a"; "b"] page_load) in
  let evs := [Respond 0 Rejected; Advance 6000; Tick; ClickOption 0; Fire 0;
              Respond 0 (Resolved true (status_json 2 2))] in
  let st1 := step Script.program st (Respond 1 (Resolved true (verdict_json true))) in
  pending (runtime st) !! 1%nat = Some (AwaitAnswer 1 "a")
  ∧ all_disabled (run Script.program st1 evs).
Proof.
  intros st evs st1. split; [reflexivity|].
  pose proof (correct_answer_is_terminal Script.program st 1 1 "a" true
                (verdict_json true) evs (or_introl eq_refl) eq_refl eq_refl
                eq_refl) as H.
  apply H; repeat constructor.
Defined.

(** ** What opens the question panel and what closes the banner *)

Lemma step_panel_closed (P : Program) (st : State) (e : Event) :
  P = Script.program ∨ P = StaticScript.program →
  panel_closed st → is_question_click e = false → panel_closed (step P st e).
Proof.
  intros HP (Hhid & Hload) He.
  unfold panel_closed, no_load_pending in *.
  destruct e as [dt| |i|i|k r|k]; simpl; try discriminate He.
  - destruct (0 <=? dt); done.
  - destruct (interval (runtime st) <=? clock (runtime st)); [|done].
    destruct HP as [-> | ->]; simpl;
      (split; [done|apply Forall_app; split; [done|by repeat constructor]]).
  - destruct (optionsContainer (dom st) !! i) as [b|]; [|done].
    destruct (opt_disabled b); [done|].
    destruct HP as [-> | ->]; simpl;
      (split; [done|apply Forall_app; split; [done|by repeat constructor]]).
  - destruct (pending (runtime st) !! k) as [p|] eqn:Ep; [|done].
    pose proof (Forall_lookup_1 _ _ _ _ Hload Ep) as Hp.
    pose proof (Forall_delete _ _ k Hload) as Hdel.
    destruct HP as [-> | ->]; simpl; destruct p; try discriminate Hp;
      handlers;
      (split; [done|]);
      first [done | rewrite <- ?(assoc_L (++)); apply Forall_app; split;
                    [done|by repeat constructor]].
  - destruct (timeouts (runtime st) !! k) as [due|]; [|done].
    destruct (due <=? clock (runtime st)); [|done].
    destruct HP as [-> | ->]; done.
Qed.

(** X8.  In either script only [loadQuestion] shows the question panel.
    While the panel is hidden and no load is in flight, no poll, verdict,
    clear-condition evaluation or timer shows it: it stays hidden until a
    question button is clicked. *)
Theorem panel_opened_only_by_loading (P : Program) (st : State)
    (evs : list Event) :
  P = Script.program ∨ P = StaticScript.program →
  quizContainer_hidden (dom st) = true →
  no_load_pending st →
  no_question_click evs →
  quizContainer_hidden (dom (run P st evs)) = true.
Proof.
  intros HP Hhid Hload Hclick.
  assert (panel_closed st) as Hc by done.
  clear Hhid Hload. revert st Hc.
  induction evs as [|e evs IH]; intros st Hc; simpl; [apply Hc|].
  apply Forall_cons in Hclick as [He Hclick].
  apply IH; [done|]. by apply step_panel_closed.
Qed.

Lemma panel_opened_only_by_loading_witness :
  let st := set_pending [AwaitAnswer 1 "a"]
              (set_quizContainer_hidden true (showing 1 ["a"] page_load)) in
  let evs := [Respond 0 (Resolved true (verdict_json false)); Advance 2000;
              Fire 0; Respond 0 (Resolved true (status_json 2 1)); ClickOption 0] in
  quizContainer_hidden (dom st) = true
  ∧ quizContainer_hidden (dom (run Script.program st evs)) = true.
Proof.
  intros st evs. split; [reflexivity|].
  apply (panel_opened_only_by_loading Script.program st evs (or_introl eq_refl));
    [reflexivity|repeat constructor|repeat constructor].
Defined.

Lemma static_step_banner (st : State) (e : Event) :
  banner_shown st → banner_shown (step StaticScript.program st e).
Proof.
  unfold banner_shown. intros Hb.
  destruct e as [dt| |i|i|k r|k]; simpl.
  - destruct (0 <=? dt); done.
  - destruct (interval (runtime st) <=? clock (runtime st)); done.
  - destruct (questionListDiv (dom st) !! i) as [b|]; [|done].
    destruct (btn_disabled b); [done|].
    destruct (btn_onclick b) as [q|]; [|done].
    simpl. handlers; done.
  - destruct (optionsContainer (dom st) !! i) as [b|]; [|done].
    destruct (opt_disabled b); done.
  - destruct (pending (runtime st) !! k) as [p|]; [|done].
    simpl. destruct p; handlers; done.
  - destruct (timeouts (runtime st) !! k) as [due|]; [|done].
    destruct (due <=? clock (runtime st)); done.
Qed.

(** X9.  [static/script.js] has no statement that hides the completion
    banner: once shown it stays shown through every sequence of events,
    also when later polls report more questions than were answered. *)
Theorem static_banner_is_permanent (st : State) (evs : list Event) :
  banner_shown st → banner_shown (run StaticScript.program st evs).
Proof.
  revert st. induction evs as [|e evs IH]; intros st Hb; simpl; [done|].
  apply IH. by apply static_step_banner.
Qed.

Lemma static_banner_is_permanent_witness :
  let st := set_pending [AwaitStatus]
              (set_clearMessage_hidden false (answered (JNum 2) [1; 2] page_load)) in
  let evs := [Respond 0 (Resolved true (status_json 5 5)); ClickQuestion 2;
              Respond 0 (Resolved true (question_json "?" ["x"] None));
              ClickOption 0; Respond 0 (Resolved true (verdict_json false))] in
  banner_shown st
  ∧ totalQuestions (session (run StaticScript.program st evs)) = JNum 5
  ∧ banner_shown (run StaticScript.program st evs).
Proof.
  intros st evs. split; [reflexivity|]. split; [reflexivity|].
  apply (static_banner_is_permanent st evs). reflexivity.
Defined.

(** ** The stored total in script.js *)

Lemma forget_total_set (v : JsVal) (st : State) :
  forget_total (set_totalQuestions v st) = forget_total st.
Proof. reflexivity. Qed.

Ltac same_state :=
  lazy -[pretty String.append union singleton fmap app delete];
  reflexivity.

Ltac expose :=
  cbn [dom runtime session correctAnswers forget_total set_totalQuestions
       upd_session upd_runtime enter set_pending].

Lemma script_step_forget (st : State) (e : Event) :
  forget_total (step Script.program (forget_total st) e)
  = forget_total (step Script.program st e).
Proof.
  destruct st as [[total answers] page rt].
  destruct e as [dt| |i|i|k r|k]; unfold step; expose.
  - destruct (0 <=? dt); same_state.
  - destruct (interval rt <=? clock rt); same_state.
  - destruct (questionListDiv page !! i) as [b|]; [|reflexivity].
    destruct (btn_disabled b); [reflexivity|].
    destruct (btn_onclick b) as [q|]; [|reflexivity].
    unfold on_question_click, Script.program, Script.loadQuestion. expose.
    destruct (decide (q ∈ answers)); same_state.
  - destruct (optionsContainer page !! i) as [b|]; [|reflexivity].
    destruct (opt_disabled b); same_state.
  - destruct (pending rt !! k) as [p|]; [|reflexivity].
    unfold on_response, Script.program, Script.resume.
    destruct p.
    + destruct r; same_state.
    + destruct r as [|[] data]; [same_state| |same_state].
      unfold Script.updateQuestionList_resume.
      destruct (questions data); same_state.
    + destruct r as [|[] data]; [same_state| |same_state].
      unfold Script.loadQuestion_resume.
      destruct (image data) as [name|];
        [destruct (decide (name = ""))|];
        destruct (options data); same_state.
    + destruct r as [|ok data]; [same_state|].
      unfold Script.submitAnswer_resume, Script.verdict.
      destruct (truthy (correct data)); same_state.
    + destruct r as [|ok data]; [same_state|].
      unfold Script.checkClearCondition_resume. expose.
      destruct (js_gt (unlocked_question data) 0 && _); same_state.
  - destruct (timeouts rt !! k) as [due|]; [|reflexivity].
    destruct (due <=? clock rt); same_state.
Qed.

Lemma script_run_forget (evs : list Event) (st st' : State) :
  forget_total st = forget_total st' →
  forget_total (run Script.program st evs)
  = forget_total (run Script.program st' evs).
Proof.
  revert st st'. induction evs as [|e evs IH]; intros st st' H; simpl; [done|].
  apply IH.
  rewrite <- (script_step_forget st e), <- (script_step_forget st' e).
  by rewrite H.
Qed.

(** X10.  [script.js] writes [totalQuestions] on every poll and never
    reads it: whatever value it holds, every sequence of events leads to
    the same page, the same correct answers, the same requests and the
    same parked activations. *)
Theorem stored_total_is_never_read (v : JsVal) (st : State) (evs : list Event) :
  let st1 := run Script.program (set_totalQuestions v st) evs in
  let st2 := run Script.program st evs in
  dom st1 = dom st2
  ∧ correctAnswers (session st1) = correctAnswers (session st2)
  ∧ runtime st1 = runtime st2.
Proof.
  pose proof (script_run_forget evs (set_totalQuestions v st) st
                (forget_total_set v st)) as H.
  split; [|split].
  - exact (f_equal dom H).
  - exact (f_equal (λ s, correctAnswers (session s)) H).
  - exact (f_equal runtime H).
Qed.

(** ** Polls that fail half way *)

Lemma script_step_list_empty (st : State) (e : Event) :
  questionListDiv (dom st) = [] → carries_list e = false →
  questionListDiv (dom (step Script.program st e)) = [].
Proof.
  intros Hl He.
  destruct e as [dt| |i|i|k r|k]; simpl.
  - destruct (0 <=? dt); done.
  - destruct (interval (runtime st) <=? clock (runtime st)); done.
  - by rewrite Hl.
  - destruct (optionsContainer (dom st) !! i) as [b|]; [|done].
    destruct (opt_disabled b); done.
  - destruct (pending (runtime st) !! k) as [p|]; [|done].
    simpl in He. simpl. destruct p as [| |q|q a|].
    + destruct r; done.
    + destruct r as [|[] data]; simpl in *; [done| |done].
      destruct (questions data); [|done].
      rewrite bool_decide_eq_true_2 in He; [discriminate He|eauto].
    + handlers; done.
    + handlers; done.
    + handlers; done.
  - destruct (timeouts (runtime st) !! k) as [due|]; [|done].
    destruct (due <=? clock (runtime st)); done.
Qed.

(** X11.  A poll of [script.js] empties the question list in the turn
    that decodes its status reply, before the questions are requested,
    and stores the total of that reply.  From then on the list stays
    empty through every sequence of events in which no reply carrying a
    list of questions is handled: a list read that fails (rejected, not
    [ok], or a body without [questions]) logs one line and leaves the
    page as it finds it.  A poll whose status read is rejected leaves the
    page as it was. *)
Theorem failed_list_read_blanks_list (st : State) (k : nat) (ok : bool)
    (data : Json) (evs : list Event) (r : Response) (st' : State) :
  pending (runtime st) !! k = Some AwaitStatus →
  no_list_reply evs →
  lists r = false →
  let st1 := step Script.program st (Respond k (Resolved ok data)) in
  questionListDiv (dom st1) = []
  ∧ totalQuestions (session st1) = total_questions data
  ∧ questionListDiv (dom (run Script.program st1 evs)) = []
  ∧ dom (Script.updateQuestionList_resume r st') = dom st'
  ∧ console (runtime (Script.updateQuestionList_resume r st'))
    = console (runtime st') ++ ["Error updating question list:"]
  ∧ dom (step Script.program st (Respond k Rejected)) = dom st.
Proof.
  intros Hk Hevs Hr st1.
  assert (questionListDiv (dom st1) = []) as Hl
    by (subst st1; simpl; by rewrite Hk).
  split; [done|]. split; [subst st1; simpl; by rewrite Hk|]. split.
  - clear Hk. revert Hl. generalize st1. clear st1.
    induction evs as [|e evs IH]; intros st1 Hl; simpl; [done|].
    apply Forall_cons in Hevs as [He Hevs].
    apply IH; [done|]. by apply script_step_list_empty.
  - assert (Script.updateQuestionList_resume r st'
            = console_error "Error updating question list:" st') as ->.
    { destruct r as [|[] d]; simpl in *; [done| |done].
      destruct (questions d); [|done].
      rewrite bool_decide_eq_true_2 in Hr; [discriminate Hr|eauto]. }
    split; [done|]. split; [done|]. simpl. by rewrite Hk.
Qed.

(** A list is on display; a poll starts, a second poll is started by the
    interval and its status read is decoded, the list read of the first
    fails, an option is clicked: the list is empty. *)
Lemma failed_list_read_blanks_list_witness :
  let st := set_pending [AwaitStatus]
              (Script.updateQuestionList_resume
                 (Resolved true (questions_json (three_questions false)))
                 (showing 1 ["a"] page_load)) in
  let evs := [Advance 5000; Tick;
              Respond 1 (Resolved true (status_json 3 2));
              Respond 0 (Resolved false (error_json "unavailable"));
              ClickOption 0; ClickQuestion 0] in
  let st1 := step Script.program st (Respond 0 (Resolved true (status_json 3 2))) in
  length (questionListDiv (dom st)) = 3%nat
  ∧ pending (runtime st) !! 0%nat = Some AwaitStatus
  ∧ questionListDiv (dom (run Script.program st1 evs)) = []
  ∧ pending (runtime (run Script.program st1 evs))
    = [AwaitAllQuestions; AwaitAnswer 1 "a"].
Proof.
  intros st evs st1. split; [reflexivity|]. split; [reflexivity|].
  pose proof (failed_list_read_blanks_list st 0 true (status_json 3 2) evs
                Rejected page_load eq_refl) as H.
  destruct H as (_ & _ & H & _); [by repeat constructor|reflexivity|].
  split; [exact H|vm_compute; reflexivity].
Defined.

(** X12.  [updateQuestionList] of [static/script.js] rebuilds the list
    from its two arguments alone: as many buttons as the number
    [totalCount] converts to (none if it converts to [NaN] or is not
    positive), in the order 1, 2, ..., the button at position [i] being
    the one of question [i + 1], whatever the list held before. *)
Theorem static_list_shape (unlockedCount totalCount : JsVal)
    (old : list QuestionBtn) (st : State) :
  let st1 := StaticScript.updateQuestionList unlockedCount totalCount
               (set_questionListDiv old st) in
  length (questionListDiv (dom st1))
  = match to_number totalCount with
    | Some n => Z.to_nat n
    | None => 0%nat
    end
  ∧ (∀ i : nat,
       (i < length (questionListDiv (dom st1)))%nat →
       questionListDiv (dom st1) !! i
       = Some (StaticScript.question_button (correctAnswers (session st))
                 unlockedCount (Z.of_nat i + 1)))
  ∧ questionListDiv (dom st1)
    = questionListDiv
        (dom (StaticScript.updateQuestionList unlockedCount totalCount st)).
Proof.
  simpl. unfold StaticScript.indices.
  destruct (to_number totalCount) as [n|]; simpl.
  - rewrite length_fmap, length_seqZ. split; [done|]. split; [|done].
    intros i Hi. rewrite list_lookup_fmap, lookup_seqZ_lt by lia.
    simpl. f_equal. f_equal. lia.
  - split; [done|]. split; [|done]. intros i Hi. simpl in Hi. lia.
Qed.

(** ** The order of the reply does not show *)

Lemma same_id_same_question (qs : list Question) (x y : Question) :
  NoDup (id <$> qs) → x ∈ qs → y ∈ qs → id x = id y → x = y.
Proof.
  induction qs as [|q qs IH]; intros Hnd Hx Hy Hid; [by apply elem_of_nil in Hx|].
  simpl in Hnd. apply NoDup_cons in Hnd as [Hq Hnd].
  apply elem_of_cons in Hx as [-> | Hx]; apply elem_of_cons in Hy as [-> | Hy].
  - done.
  - exfalso. apply Hq. rewrite Hid. by apply list_elem_of_fmap_2.
  - exfalso. apply Hq. rewrite <- Hid. by apply list_elem_of_fmap_2.
  - by apply IH.
Qed.

(** X13.  When the ids of the questions are distinct, the list that
    [updateQuestionList] of [script.js] renders does not depend on the
    order in which the reply lists the questions. *)
Theorem rendering_ignores_reply_order (qs qs' : list Question)
    (data data' : Json) (st : State) :
  questions data = Some qs →
  questions data' = Some qs' →
  qs ≡ₚ qs' →
  NoDup (id <$> qs) →
  Script.updateQuestionList_resume (Resolved true data) st
  = Script.updateQuestionList_resume (Resolved true data') st.
Proof.
  intros Hd Hd' Hperm Hnd. simpl. rewrite Hd, Hd'.
  replace (sort_by_id qs') with (sort_by_id qs); [done|].
  apply (StronglySorted_unique_strong id_le).
  - intros x y Hx Hy Hxy Hyx.
    rewrite sort_by_id_perm in Hx. rewrite sort_by_id_perm, <- Hperm in Hy.
    apply (same_id_same_question qs); [done..|]. unfold id_le in *. lia.
  - apply sort_by_id_sorted.
  - apply sort_by_id_sorted.
  - by rewrite !sort_by_id_perm.
Qed.

Lemma rendering_ignores_reply_order_witness :
  let qs := three_questions false in
  let st := answered (JNum 3) [2] page_load in
  qs ≡ₚ reverse qs
  ∧ Script.updateQuestionList_resume (Resolved true (questions_json qs)) st
    = Script.updateQuestionList_resume
        (Resolved true (questions_json (reverse qs))) st.
Proof.
  intros qs st.
  assert (qs ≡ₚ reverse qs) as Hperm by (symmetry; apply reverse_Permutation).
  split; [exact Hperm|].
  apply (rendering_ignores_reply_order qs (reverse qs)); [reflexivity..|exact Hperm|].
  vm_compute. repeat constructor; classes.
Defined.

(** ** Counting correct answers *)

(** X14.  [correctAnswers] is a set.  In either script a correct verdict
    for a question already in it leaves the set, and so the count the
    clear condition compares, as it was; a correct verdict for a new
    question raises the count by exactly one. *)
Theorem correct_answers_count (q_id : Z) (data : Json) (st : State) :
  truthy (correct data) = true →
  let before := correctAnswers (session st) in
  let after := correctAnswers (session (Script.verdict q_id data st)) in
  correctAnswers (session (StaticScript.verdict q_id data st)) = after
  ∧ (if decide (q_id ∈ before) then after = before
     else size after = S (size before)).
Proof.
  intros Hc. unfold Script.verdict, StaticScript.verdict. rewrite Hc. simpl.
  split; [done|].
  destruct (decide (q_id ∈ correctAnswers (session st))) as [Hin|Hout].
  - apply subseteq_union_1_L. by apply singleton_subseteq_l.
  - rewrite size_union by (by apply disjoint_singleton_l).
    by rewrite size_singleton.
Qed.

Lemma correct_answers_count_witness :
  let st := answered (JNum 3) [1; 2] page_load in
  truthy (correct (verdict_json true)) = true
  ∧ correctAnswers (session (Script.verdict 2 (verdict_json true) st))
    = correctAnswers (session st)
  ∧ size (correctAnswers (session (Script.verdict 3 (verdict_json true) st)))
    = S (size (correctAnswers (session st))).
Proof.
  intros st. split; [reflexivity|].
  pose proof (correct_answers_count 2 (verdict_json true) st eq_refl) as (_ & H2).
  pose proof (correct_answers_count 3 (verdict_json true) st eq_refl) as (_ & H3).
  destruct (decide (2 ∈ correctAnswers (session st))) as [_|Hn];
    [|exfalso; apply Hn; vm_compute; set_solver].
  destruct (decide (3 ∈ correctAnswers (session st))) as [Hi|_];
    [exfalso; revert Hi; vm_compute; set_solver|].
  split; [exact H2|exact H3].
Defined.

(** ** Which questions can be answered *)

Lemma known_weaken (S S' : Z → Prop) (st : State) :
  (∀ q, S q → S' q) → known S st → known S' st.
Proof.
  intros HS (Hl & Ho & Hp & Hc). unfold known. repeat split.
  - eapply Forall_impl; [exact Hl|]. naive_solver.
  - eapply Forall_impl; [exact Ho|]. naive_solver.
  - eapply Forall_impl; [exact Hp|]. naive_solver.
  - naive_solver.
Qed.

Lemma known_options_disabled (S : Z → Prop) (b : bool) (l : list OptionBtn) :
  Forall (λ o, S (opt_onclick o).1) l →
  Forall (λ o, S (opt_onclick o).1) (with_disabled b <$> l).
Proof. intros H. apply Forall_fmap. eapply Forall_impl; [exact H|done]. Qed.

Lemma known_options_loaded (S : Z → Prop) (q_id : Z) (opts : list string) :
  S q_id → Forall (λ o, S (opt_onclick o).1) (option_button q_id <$> opts).
Proof. intros H. apply Forall_fmap, Forall_true. done. Qed.

Lemma known_pending_snoc (S : Z → Prop) (l : list Pending) (p : Pending) :
  Forall (λ p, ∀ q, pending_question p = Some q → S q) l →
  (∀ q, pending_question p = Some q → S q) →
  Forall (λ p, ∀ q, pending_question p = Some q → S q) (l ++ [p]).
Proof. intros Hl Hp. apply Forall_app. split; [done|]. by repeat constructor. Qed.

Ltac known_parts :=
  repeat first
    [ done
    | apply Forall_nil_2
    | apply known_options_disabled
    | apply known_options_loaded
    | apply known_pending_snoc
    | apply Forall_delete
    | by intros ? [= <-]
    | discriminate
    | match goal with
      | H : _ ∈ {[_]} ∪ _ |- _ =>
          apply elem_of_union in H as [->%elem_of_singleton|?]; by eauto
      end
    | progress intros ].

Lemma script_step_known (S S' : Z → Prop) (st : State) (e : Event) :
  (∀ q, S q → S' q) →
  (∀ q, reports_public q e = true → S' q) →
  known S st → known S' (step Script.program st e).
Proof.
  intros HS Hrep (Hl & Ho & Hp & Hc).
  assert (∀ st', known S st' → known S' st') as Hkeep
    by (intros st'; by apply known_weaken).
  destruct e as [dt| |i|i|k r|k]; simpl.
  - apply Hkeep. destruct (0 <=? dt); done.
  - apply Hkeep.
    destruct (interval (runtime st) <=? clock (runtime st)); [|done].
    unfold known; simpl; repeat split; known_parts.
  - apply Hkeep.
    destruct (questionListDiv (dom st) !! i) as [b|] eqn:Eb; [|done].
    destruct (btn_disabled b); [done|].
    destruct (btn_onclick b) as [q|] eqn:Eq; [|done].
    pose proof (Forall_lookup_1 _ _ _ _ Hl Eb q Eq) as Hq.
    simpl. unfold Script.loadQuestion. simpl.
    destruct (decide (q ∈ correctAnswers (session st)));
      unfold known; simpl; repeat split; known_parts.
  - apply Hkeep.
    destruct (optionsContainer (dom st) !! i) as [b|] eqn:Eb; [|done].
    destruct (opt_disabled b); [done|].
    pose proof (Forall_lookup_1 _ _ _ _ Ho Eb) as Hq. simpl in Hq.
    unfold known; simpl; repeat split; known_parts.
  - destruct (pending (runtime st) !! k) as [p|] eqn:Ep; [|by apply Hkeep].
    pose proof (Forall_lookup_1 _ _ _ _ Hp Ep) as Hq. simpl.
    destruct p as [| |q|q a|].
    + apply Hkeep. destruct r; unfold known; simpl; repeat split; known_parts.
    + destruct r as [|[] data]; simpl;
        [apply Hkeep; unfold known; simpl; repeat split; known_parts
        | |apply Hkeep; unfold known; simpl; repeat split; known_parts].
      destruct (questions data) as [qs|] eqn:Eqs;
        [|apply Hkeep; unfold known; simpl; repeat split; known_parts].
      unfold known; simpl. split; [|split; [|split]].
      * apply Forall_app. split.
        { eapply Forall_impl; [exact Hl|]. naive_solver. }
        apply Forall_fmap, Forall_forall. intros x Hx q. simpl.
        unfold Script.question_button.
        destruct (is_public x) eqn:Epub; simpl; [|done].
        intros [= <-]. apply Hrep. simpl. rewrite Eqs.
        apply bool_decide_eq_true_2.
        apply Exists_exists. exists x. rewrite sort_by_id_perm in Hx. done.
      * eapply Forall_impl; [exact Ho|]. naive_solver.
      * apply Forall_delete. eapply Forall_impl; [exact Hp|]. naive_solver.
      * naive_solver.
    + apply Hkeep. specialize (Hq q eq_refl).
      destruct r as [|[] data]; simpl;
        [unfold known; simpl; repeat split; known_parts| |
         unfold known; simpl; repeat split; known_parts].
      destruct (image data) as [name|]; simpl;
        [destruct (decide (name = "")); simpl|];
        destruct (options data); unfold known; simpl; repeat split;
        known_parts.
    + apply Hkeep. specialize (Hq q eq_refl).
      destruct r as [|ok data]; simpl;
        [unfold known; simpl; repeat split; known_parts|].
      unfold Script.verdict. destruct (truthy (correct data));
        unfold known; simpl; repeat split; known_parts.
    + apply Hkeep. destruct r as [|ok data]; simpl;
        [unfold known; simpl; repeat split; known_parts|].
      destruct (js_gt (unlocked_question data) 0 && _);
        unfold known; simpl; repeat split; known_parts.
  - apply Hkeep.
    destruct (timeouts (runtime st) !! k) as [due|]; [|done].
    destruct (due <=? clock (runtime st)); [|done].
    unfold known; simpl; repeat split; known_parts.
Qed.

Lemma static_step_known (S S' : Z → Prop) (st : State) (e : Event) :
  (∀ q, S q → S' q) →
  (∀ q, reports_unlocked q e = true → S' q) →
  known S st → known S' (step StaticScript.program st e).
Proof.
  intros HS Hrep (Hl & Ho & Hp & Hc).
  assert (∀ st', known S st' → known S' st') as Hkeep
    by (intros st'; by apply known_weaken).
  destruct e as [dt| |i|i|k r|k]; simpl.
  - apply Hkeep. destruct (0 <=? dt); done.
  - apply Hkeep.
    destruct (interval (runtime st) <=? clock (runtime st)); [|done].
    unfold known; simpl; repeat split; known_parts.
  - apply Hkeep.
    destruct (questionListDiv (dom st) !! i) as [b|] eqn:Eb; [|done].
    destruct (btn_disabled b); [done|].
    destruct (btn_onclick b) as [q|] eqn:Eq; [|done].
    pose proof (Forall_lookup_1 _ _ _ _ Hl Eb q Eq) as Hq.
    simpl. unfold StaticScript.loadQuestion. simpl.
    destruct (decide (q ∈ correctAnswers (session st)));
      unfold known; simpl; repeat split; known_parts.
  - apply Hkeep.
    destruct (optionsContainer (dom st) !! i) as [b|] eqn:Eb; [|done].
    destruct (opt_disabled b); [done|].
    pose proof (Forall_lookup_1 _ _ _ _ Ho Eb) as Hq. simpl in Hq.
    unfold known; simpl; repeat split; known_parts.
  - destruct (pending (runtime st) !! k) as [p|] eqn:Ep; [|by apply Hkeep].
    pose proof (Forall_lookup_1 _ _ _ _ Hp Ep) as Hq. simpl.
    destruct p as [| |q|q a|].
    + destruct r as [|ok data]; simpl;
        [apply Hkeep; unfold known; simpl; repeat split; known_parts|].
      unfold known; simpl. split; [|split; [|split]].
      * apply Forall_fmap, Forall_forall. intros x _ q. simpl.
        unfold StaticScript.question_button.
        destruct (js_le x (unlocked_question data)) eqn:Ele; simpl; [|done].
        intros [= <-]. by apply Hrep.
      * eapply Forall_impl; [exact Ho|]. naive_solver.
      * apply Forall_delete. eapply Forall_impl; [exact Hp|]. naive_solver.
      * naive_solver.
    + apply Hkeep. unfold known; simpl; repeat split; known_parts.
    + apply Hkeep. specialize (Hq q eq_refl).
      destruct r as [|[] data]; simpl;
        [unfold known; simpl; repeat split; known_parts| |
         unfold known; simpl; repeat split; known_parts].
      destruct (options data); unfold known; simpl; repeat split;
        known_parts.
    + apply Hkeep. specialize (Hq q eq_refl).
      destruct r as [|ok data]; simpl;
        [unfold known; simpl; repeat split; known_parts|].
      unfold StaticScript.submitAnswer_resume, StaticScript.verdict,
        StaticScript.checkClearCondition.
      destruct (truthy (correct data)); simpl; branches;
        unfold known; simpl; repeat split; known_parts.
    + apply Hkeep. unfold known; simpl; repeat split; known_parts.
  - apply Hkeep.
    destruct (timeouts (runtime st) !! k) as [due|]; [|done].
    destruct (due <=? clock (runtime st)); [|done].
    unfold known; simpl; repeat split; known_parts.
Qed.

Section Known.

Variable P : Program.
Variable reports : Z → Event → bool.
Hypothesis step_known :
  ∀ (S S' : Z → Prop) st e,
    (∀ q, S q → S' q) → (∀ q, reports q e = true → S' q) →
    known S st → known S' (step P st e).

Lemma run_known (evs : list Event) (S : Z → Prop) (st : State) :
  known S st →
  known (λ q, S q ∨ Exists (λ e, reports q e = true) evs) (run P st evs).
Proof.
  revert S st. induction evs as [|e evs IH]; intros S st Hk; simpl.
  - eapply known_weaken; [|exact Hk]. by left.
  - eapply known_weaken;
      [|apply (IH (λ q, S q ∨ reports q e = true));
        apply (step_known S); [by left|by right|done]].
    intros q [[?|?]|?]; [by left|right; by apply Exists_cons_hd|
                         right; by apply Exists_cons_tl].
Qed.

Lemma run_untouched (evs : list Event) (st : State) :
  untouched st →
  known (λ q, Exists (λ e, reports q e = true) evs) (run P st evs).
Proof.
  intros (Hl & Ho & Hp & Hc).
  eapply known_weaken; [|apply (run_known evs (λ _, False))].
  - by intros q [[]|?].
  - unfold known. rewrite Hl, Ho, Hc. repeat split; [done|done| |set_solver].
    eapply Forall_impl; [exact Hp|]. by intros p -> q.
Qed.

End Known.

(** X15.  In [script.js], starting from a page on which no question is in
    play, whatever the order of events: every id in [correctAnswers], and
    every id an option on display would submit for, was listed as a
    public question by some reply received until then. *)
Theorem answered_questions_were_public (st : State) (evs : list Event) (q_id : Z) :
  untouched st →
  let st1 := run Script.program st evs in
  q_id ∈ correctAnswers (session st1)
  ∨ q_id ∈ ((λ o, (opt_onclick o).1) <$> optionsContainer (dom st1)) →
  Exists (λ e, reports_public q_id e = true) evs.
Proof.
  intros Hu st1 Hq.
  pose proof (run_untouched Script.program reports_public script_step_known
                evs st Hu) as (_ & Ho & _ & Hc).
  fold st1 in Ho, Hc. destruct Hq as [Hq|Hq]; [by apply Hc|].
  apply list_elem_of_fmap in Hq as (o & -> & Hin).
  by apply (proj1 (Forall_forall _ _) Ho).
Qed.

Lemma answered_questions_were_public_witness :
  let evs := [Respond 0 (Resolved true (status_json 3 2));
              Respond 0 (Resolved true (questions_json (three_questions false)));
              ClickQuestion 1;
              Respond 0 (Resolved true (question_json "?" ["a"] None));
              ClickOption 0;
              Respond 0 (Resolved true (verdict_json true))] in
  let st := boot Script.program page_load in
  untouched st
  ∧ elements (correctAnswers (session (run Script.program st evs))) = [2]
  ∧ Exists (λ e, reports_public 2 e = true) evs.
Proof.
  intros evs st.
  assert (untouched st) as Hu by (repeat split; repeat constructor).
  split; [exact Hu|]. split; [vm_compute; reflexivity|].
  apply (answered_questions_were_public st evs 2 Hu).
  left. vm_compute. set_solver.
Defined.

(** X16.  In [static/script.js], starting from a page on which no
    question is in play: every id in [correctAnswers], and every id an
    option on display would submit for, was at most the
    [unlocked_question] of some reply received until then. *)
Theorem static_answered_questions_were_unlocked (st : State)
    (evs : list Event) (q_id : Z) :
  untouched st →
  let st1 := run StaticScript.program st evs in
  q_id ∈ correctAnswers (session st1)
  ∨ q_id ∈ ((λ o, (opt_onclick o).1) <$> optionsContainer (dom st1)) →
  Exists (λ e, reports_unlocked q_id e = true) evs.
Proof.
  intros Hu st1 Hq.
  pose proof (run_untouched StaticScript.program reports_unlocked
                static_step_known evs st Hu) as (_ & Ho & _ & Hc).
  fold st1 in Ho, Hc. destruct Hq as [Hq|Hq]; [by apply Hc|].
  apply list_elem_of_fmap in Hq as (o & -> & Hin).
  by apply (proj1 (Forall_forall _ _) Ho).
Qed.

Lemma static_answered_questions_were_unlocked_witness :
  let evs := [Respond 0 (Resolved true (status_json 3 2));
              ClickQuestion 1;
              Respond 0 (Resolved true (question_json "?" ["a"] None));
              ClickOption 0;
              Respond 0 (Resolved true (verdict_json true))] in
  let st := boot StaticScript.program page_load in
  untouched st
  ∧ elements (correctAnswers (session (run StaticScript.program st evs))) = [2]
  ∧ Exists (λ e, reports_unlocked 2 e = true) evs.
Proof.
  intros evs st.
  assert (untouched st) as Hu by (repeat split; repeat constructor).
  split; [exact Hu|]. split; [vm_compute; reflexivity|].
  apply (static_answered_questions_were_unlocked st evs 2 Hu).
  left. vm_compute. set_solver.
Defined.

(** ** Reaching the clear condition *)

Lemma clear_test_after_add (q_id : Z) (answers : gset Z) (n : Z) :
  q_id ∉ answers → Z.of_nat (S (size answers)) = n →
  js_gt (JNum n) 0
  && js_strict_eq (Z.of_nat (size ({[q_id]} ∪ answers))) (JNum n) = true.
Proof.
  intros Hout Hn. apply clear_test_spec. exists n. split; [done|].
  rewrite size_union by (by apply disjoint_singleton_l).
  rewrite size_singleton. simpl. lia.
Qed.

(** X17.  The correct answer to a new question that brings the number
    of correct answers up to [n] shows the banner and hides the quiz
    panel.  [static/script.js] does so in the very turn that handles the
    verdict, when the total it has stored is [n].  [script.js] leaves the
    banner as it was in that turn and parks a status read; the banner is
    shown in whichever later turn handles the reply to a clear-condition
    read that carries the count [n], provided [correctAnswers] still has
    [n] elements then, whatever else happened in between. *)
Theorem last_correct_answer_shows_banner (st : State) (k j : nat) (q_id : Z)
    (answer : string) (ok ok' : bool) (data data' : Json) (n : Z)
    (evs : list Event) :
  pending (runtime st) !! k = Some (AwaitAnswer q_id answer) →
  truthy (correct data) = true →
  q_id ∉ correctAnswers (session st) →
  Z.of_nat (S (size (correctAnswers (session st)))) = n →
  (let st1 := step StaticScript.program st (Respond k (Resolved ok data)) in
   totalQuestions (session st) = JNum n →
   banner_shown st1 ∧ quizContainer_hidden (dom st1) = true)
  ∧ (let st1 := step Script.program st (Respond k (Resolved ok data)) in
     let st2 := run Script.program st1 evs in
     let st3 := step Script.program st2 (Respond j (Resolved ok' data')) in
     clearMessage_hidden (dom st1) = clearMessage_hidden (dom st)
     ∧ pending (runtime st1) !! (length (pending (runtime st)) - 1)%nat
       = Some AwaitClear
     ∧ Z.of_nat (size (correctAnswers (session st1))) = n
     ∧ (pending (runtime st2) !! j = Some AwaitClear →
        unlocked_question data' = JNum n →
        size (correctAnswers (session st2)) = size (correctAnswers (session st1)) →
        banner_shown st3 ∧ quizContainer_hidden (dom st3) = true)).
Proof.
  intros Hk Hc Hout Hn.
  pose proof (clear_test_after_add q_id _ n Hout Hn) as Htest.
  unfold banner_shown. split.
  - simpl. rewrite Hk. simpl.
    unfold StaticScript.submitAnswer_resume, StaticScript.verdict,
      StaticScript.checkClearCondition.
    rewrite Hc. simpl. intros Htotal. rewrite Htotal, Htest. done.
  - assert (length (delete k (pending (runtime st)))
            = (length (pending (runtime st)) - 1)%nat) as Hlen.
    { rewrite length_delete; [done|]. by rewrite Hk. }
    assert (correctAnswers
              (session (step Script.program st (Respond k (Resolved ok data))))
            = {[q_id]} ∪ correctAnswers (session st)) as Hset.
    { simpl. rewrite Hk. simpl.
      unfold Script.submitAnswer_resume, Script.verdict. by rewrite Hc. }
    split; [|split; [|split]].
    + simpl. rewrite Hk. simpl.
      unfold Script.submitAnswer_resume, Script.verdict. by rewrite Hc.
    + simpl. rewrite Hk. simpl.
      unfold Script.submitAnswer_resume, Script.verdict. rewrite Hc. simpl.
      rewrite <- (assoc_L (++)). simpl. by apply list_lookup_middle.
    + rewrite Hset, size_union by (by apply disjoint_singleton_l).
      rewrite size_singleton. simpl. lia.
    + intros Hj Hcount Hsize.
      set (st2 := run Script.program _ evs) in *.
      simpl. rewrite Hj. simpl. rewrite Hcount, Hsize, Hset, Htest. done.
Qed.

(** The verdict on question 2 completes two questions.  Before the reply
    to its status read is handled, the poll it started re-renders the
    list, the interval starts another poll and an option is clicked. *)
Lemma last_correct_answer_shows_banner_witness :
  let st := set_pending [AwaitStatus; AwaitAnswer 2 "b"]
              (showing 2 ["a"; "b"] (answered (JNum 2) [1] page_load)) in
  let right := Resolved true (verdict_json true) in
  let evs := [Respond 2 (Resolved true (status_json 2 2));
              Respond 2 (Resolved true (questions_json (three_questions true)));
              Advance 5000; Tick; ClickOption 0; Respond 0 Rejected] in
  let st1 := step Script.program st (Respond 1 right) in
  let st2 := run Script.program st1 evs in
  pending (runtime st) !! 1%nat = Some (AwaitAnswer 2 "b")
  ∧ banner_shown (step StaticScript.program st (Respond 1 right))
  ∧ ¬ banner_shown st1
  ∧ pending (runtime st2) = [AwaitClear; AwaitStatus]
  ∧ banner_shown
      (step Script.program st2 (Respond 0 (Resolved true (status_json 2 2)))).
Proof.
  intros st right evs st1 st2. split; [reflexivity|].
  assert (2 ∉ correctAnswers (session st)) as Hout
    by (vm_compute; set_solver).
  pose proof (last_correct_answer_shows_banner st 1 0 2 "b" true true
                (verdict_json true) (status_json 2 2) 2 evs
                eq_refl eq_refl Hout eq_refl)
    as (H1 & (_ & _ & _ & H2)).
  split; [apply H1; reflexivity|]. split; [vm_compute; discriminate|].
  split; [vm_compute; reflexivity|].
  apply H2; [vm_compute; reflexivity|reflexivity|vm_compute; reflexivity].
Defined.

(** ** Replies the scripts do not tell apart *)

(** X18.  [submitAnswer] reads nothing of a reply but [correct]: in
    either script two decoded replies with the same [correct] lead to the
    same state, whatever their status and other fields.  A failure the
    server reports as a JSON body without [correct] is therefore handled
    as a wrong answer: wrong-answer notice, no new correct answer, one
    cooldown, and the error text of the body is not shown. *)
Theorem answer_reply_read_by_correct_only (q_id : Z) (answer : string)
    (ok ok' : bool) (data data' : Json) (st : State) :
  correct data = correct data' →
  Script.submitAnswer_resume q_id answer (Resolved ok data) st
  = Script.submitAnswer_resume q_id answer (Resolved ok' data') st
  ∧ StaticScript.submitAnswer_resume q_id answer (Resolved ok data) st
    = StaticScript.submitAnswer_resume q_id answer (Resolved ok' data') st
  ∧ (∀ msg,
       let st1 := Script.submitAnswer_resume q_id answer
                    (Resolved false (error_json msg)) st in
       resultMessage_text (dom st1) = "不正解... 再挑戦してみてください。"
       ∧ correctAnswers (session st1) = correctAnswers (session st)
       ∧ timeouts (runtime st1)
         = timeouts (runtime st) ++ [clock (runtime st) + 2000]).
Proof.
  intros Hc.
  unfold Script.submitAnswer_resume, StaticScript.submitAnswer_resume,
    Script.verdict, StaticScript.verdict.
  rewrite Hc. done.
Qed.

Lemma answer_reply_read_by_correct_only_witness :
  let st := showing 1 ["a"] page_load in
  correct (error_json "closed") = correct empty_reply
  ∧ Script.submitAnswer_resume 1 "a" (Resolved false (error_json "closed")) st
    = Script.submitAnswer_resume 1 "a" (Resolved true empty_reply) st.
Proof.
  intros st. split; [reflexivity|].
  pose proof (answer_reply_read_by_correct_only 1 "a" false true
                (error_json "closed") empty_reply st eq_refl) as (H & _).
  exact H.
Defined.
